(** * Sage: the persistent semantic index (src/vector_store.py)

    A shallow embedding of [VectorStore]: the in-memory FAISS index, the
    metadata catalog and the document texts, together with the three
    snapshot files the store keeps on disk.

    External collaborators (the sentence encoder, FAISS' float32 kernels,
    the uuid generator) are not code of the repository; they are gathered
    in the interface [Backend] and every definition is parametric in it. *)

From stdpp Require Import base tactics option list strings gmap sets sorting.
From stdpp Require Import pretty.
From Stdlib Require Import ZArith Ascii.

Local Open Scope string_scope.
Local Open Scope Z_scope.
Local Open Scope list_scope.

(** ** Python values *)

(** The values a chunk's metadata dict holds: [chunk_text] writes a str
    under "filename" and "chunk_hash", an int under "chunk_id", and
    [add_documents] a str under "id"; [None] is what [dict.get] gives for
    an absent key and what the mutating methods return. Python's [==] on
    these three classes is structural equality. *)
Inductive PyVal : Type :=
  | PyNone
  | PyStr (s : string)
  | PyInt (z : Z).

#[global] Instance PyVal_eq_dec : EqDecision PyVal.
Proof. solve_decision. Defined.

Definition PyVal_encode (v : PyVal) : unit + (string + Z) :=
  match v with
  | PyNone => inl tt
  | PyStr s => inr (inl s)
  | PyInt z => inr (inr z)
  end.

Definition PyVal_decode (x : unit + (string + Z)) : PyVal :=
  match x with
  | inl _ => PyNone
  | inr (inl s) => PyStr s
  | inr (inr z) => PyInt z
  end.

#[global] Instance PyVal_countable : Countable PyVal.
Proof.
  apply (inj_countable' PyVal_encode PyVal_decode).
  by intros [].
Defined.

(** A metadata dict: str keys, insertion order irrelevant to the store. *)
Abbreviation Meta := (gmap string PyVal).

(** ** Exceptions *)

Inductive exn : Type :=
  | IndexError
  | FileNotFoundError
  | UnpicklingError.

Inductive outcome (A : Type) : Type :=
  | Ok (a : A)
  | Raise (e : exn).
Arguments Ok {A} a.
Arguments Raise {A} e.

#[global] Instance outcome_ret : MRet outcome := λ A a, Ok a.
#[global] Instance outcome_bind : MBind outcome := λ A B f m,
  match m with
  | Ok a => f a
  | Raise e => Raise e
  end.

(** [l[i]] for a Python int [i]: a negative index counts from the end. *)
Definition py_getitem {A} (l : list A) (i : Z) : outcome A :=
  let n := Z.of_nat (length l) in
  let j := if bool_decide (i < 0) then i + n else i in
  if bool_decide (0 ≤ j < n) then
    match l !! Z.to_nat j with
    | Some a => Ok a
    | None => Raise IndexError
    end
  else Raise IndexError.

(** [[l[i] for i in idxs]]: the comprehension stops at the first
    [IndexError]. *)
Fixpoint py_getitems {A} (l : list A) (idxs : list nat) : outcome (list A) :=
  match idxs with
  | [] => Ok []
  | i :: idxs' =>
      a ← py_getitem l (Z.of_nat i);
      rest ← py_getitems l idxs';
      Ok (a :: rest)
  end.

(** [enumerate(l)] *)
Definition enumerate {A} (l : list A) : list (nat * A) := imap pair l.

(** ** Paths *)

Definition starts_with_sep (p : string) : bool :=
  match p with
  | String "/"%char _ => true
  | _ => false
  end.

Fixpoint ends_with_sep (p : string) : bool :=
  match p with
  | "" => false
  | String c "" => bool_decide (c = "/"%char)
  | String _ p' => ends_with_sep p'
  end.

(** [os.path.join(a, p)] of posixpath, for two components. *)
Definition os_path_join (a p : string) : string :=
  if starts_with_sep p then p
  else if bool_decide (a = "") || ends_with_sep a then a +:+ p
  else a +:+ "/" +:+ p.

(** ** External collaborators *)

(** [Vec] is one float32 row of the embedding dimension (384 for
    all-MiniLM-L6-v2) and [Score] a float32 similarity. [encode_text] is
    [SentenceTransformer.encode] on one text (the encoder is deterministic
    and a batch is encoded row by row), [normalize_L2] is
    [faiss.normalize_L2] on one row, [inner_product] is the kernel of
    [IndexFlatIP], [score_leb] is [<=] on scores, [one_minus s] is the
    float expression [1 - s], and [uuid4 n] is the text of the [n]-th uuid
    the process draws. *)
Class Backend : Type := {
  Vec : Type;
  Score : Type;
  encode_text : string → Vec;
  normalize_L2 : Vec → Vec;
  inner_product : Vec → Vec → Score;
  score_leb : Score → Score → bool;
  one_minus : Score → Score;
  uuid4 : nat → string;
}.

(** The order laws of float32 [<=] on the scores an index produces (no NaN
    among them): any two scores compare, and the comparison is
    transitive. *)
Class ScoreOrder (B : Backend) : Prop := {
  score_leb_total : ∀ a b : Score, score_leb a b = true ∨ score_leb b a = true;
  score_leb_trans : ∀ a b c : Score,
    score_leb a b = true → score_leb b c = true → score_leb a c = true;
}.

Section store.
Context `{B : Backend}.

(** [self.embedding_model.encode(texts)] *)
Definition encode (texts : list string) : list Vec := encode_text <$> texts.

(** [faiss.normalize_L2(embeddings)], row by row. *)
Definition normalize_rows (embeddings : list Vec) : list Vec :=
  normalize_L2 <$> embeddings.

(** ** Files *)

(** What a snapshot file holds: the rows [faiss.write_index] serialised, or
    the list [pickle.dump] serialised. Both serialisers are lossless, so a
    file is modelled by the object it holds; loading a file that holds an
    object of another class is a failed load. *)
Inductive File : Type :=
  | FaissIndexFile (rows : list Vec)
  | MetadataPickle (ms : list Meta)
  | DocumentsPickle (ds : list string).

(** The file system, flat: path to content. The persistence directory
    is created by [__init__] and writes into it succeed. *)
Abbreviation Disk := (gmap string File).

(** ** The store object *)

(** [self.index] is an [IndexFlatIP]: its rows in insertion order, row [i]
    at position [i]. The three path attributes are set once in [__init__]
    from [persist_dir] and [collection_name] and never reassigned, so they
    are functions of those two. *)
Record VectorStore : Type := {
  persist_dir : string;
  collection_name : string;
  index : list Vec;
  metadata : list Meta;
  documents : list string;
}.

Definition index_path (self : VectorStore) : string :=
  os_path_join (persist_dir self) (collection_name self +:+ ".index").
Definition metadata_path (self : VectorStore) : string :=
  os_path_join (persist_dir self) (collection_name self +:+ "_metadata.pkl").
Definition documents_path (self : VectorStore) : string :=
  os_path_join (persist_dir self) (collection_name self +:+ "_documents.pkl").

(** [faiss.IndexFlatIP(self.embedding_dim)] *)
Definition IndexFlatIP : list Vec := [].

(** [index.add(rows)]: the rows take the next positions. *)
Definition index_add (i rows : list Vec) : list Vec := (i ++ rows)%list.

(** [self.index.ntotal] *)
Definition ntotal (self : VectorStore) : Z := Z.of_nat (length (index self)).

(** The process: the store object, the file system and the number of
    uuids drawn so far. *)
Record World : Type := {
  store : VectorStore;
  disk : Disk;
  entropy : nat;
}.

(** ** Methods as state transformers

    A method runs on the process state and either returns or raises; the
    attributes it had assigned before raising stay assigned. *)
Definition M (A : Type) : Type := World → outcome A * World.

#[global] Instance M_ret : MRet M := λ A a w, (Ok a, w).
#[global] Instance M_bind : MBind M := λ A B f m w,
  match m w with
  | (Ok a, w') => f a w'
  | (Raise e, w') => (Raise e, w')
  end.

Definition get_self : M VectorStore := λ w, (Ok (store w), w).

Definition lift {A} (o : outcome A) : M A := λ w, (o, w).

Definition with_index (self : VectorStore) (i : list Vec) : VectorStore :=
  {| persist_dir := persist_dir self; collection_name := collection_name self;
     index := i; metadata := metadata self; documents := documents self |}.
Definition with_metadata (self : VectorStore) (ms : list Meta) : VectorStore :=
  {| persist_dir := persist_dir self; collection_name := collection_name self;
     index := index self; metadata := ms; documents := documents self |}.
Definition with_documents (self : VectorStore) (ds : list string) : VectorStore :=
  {| persist_dir := persist_dir self; collection_name := collection_name self;
     index := index self; metadata := metadata self; documents := ds |}.

Definition update_self (f : VectorStore → VectorStore) : M unit := λ w,
  (Ok (), {| store := f (store w); disk := disk w; entropy := entropy w |}).

(** [self.index = i], [self.metadata = ms], [self.documents = ds] *)
Definition set_index (i : list Vec) : M unit := update_self (λ s, with_index s i).
Definition set_metadata (ms : list Meta) : M unit :=
  update_self (λ s, with_metadata s ms).
Definition set_documents (ds : list string) : M unit :=
  update_self (λ s, with_documents s ds).

(** Writing a file (creating or truncating it), [os.path.exists] and
    [os.remove]. *)
Definition write_file (path : string) (f : File) : M unit := λ w,
  (Ok (), {| store := store w; disk := <[path := f]> (disk w); entropy := entropy w |}).
Definition path_exists (path : string) : M bool := λ w,
  (Ok (bool_decide (is_Some (disk w !! path))), w).
Definition os_remove (path : string) : M unit := λ w,
  match disk w !! path with
  | Some _ =>
      (Ok (), {| store := store w; disk := delete path (disk w); entropy := entropy w |})
  | None => (Raise FileNotFoundError, w)
  end.

(** [str(uuid.uuid4())] *)
Definition fresh_uuid : M string := λ w,
  (Ok (uuid4 (entropy w)),
   {| store := store w; disk := disk w; entropy := S (entropy w) |}).

(** [_save_index]: the index, then the metadata, then the documents. *)
Definition _save_index : M unit :=
  self ← get_self;
  write_file (index_path self) (FaissIndexFile (index self));;
  write_file (metadata_path self) (MetadataPickle (metadata self));;
  write_file (documents_path self) (DocumentsPickle (documents self)).

(** [faiss.read_index(path)] and the two [pickle.load]s. *)
Definition read_index (fs : Disk) (path : string) : outcome (list Vec) :=
  match fs !! path with
  | Some (FaissIndexFile rows) => Ok rows
  | Some _ => Raise UnpicklingError
  | None => Raise FileNotFoundError
  end.
Definition load_metadata (fs : Disk) (path : string) : outcome (list Meta) :=
  match fs !! path with
  | Some (MetadataPickle ms) => Ok ms
  | Some _ => Raise UnpicklingError
  | None => Raise FileNotFoundError
  end.
Definition load_documents (fs : Disk) (path : string) : outcome (list string) :=
  match fs !! path with
  | Some (DocumentsPickle ds) => Ok ds
  | Some _ => Raise UnpicklingError
  | None => Raise FileNotFoundError
  end.

(** [_load_or_create_index] *)
Definition _load_or_create_index : M unit :=
  self ← get_self;
  found ← path_exists (index_path self);
  if (found : bool) then
    i ← (λ w, (read_index (disk w) (index_path self), w)); set_index i;;
    ms ← (λ w, (load_metadata (disk w) (metadata_path self), w)); set_metadata ms;;
    ds ← (λ w, (load_documents (disk w) (documents_path self), w)); set_documents ds
  else
    set_index IndexFlatIP;;
    set_metadata [];;
    set_documents [].

(** [VectorStore(persist_dir, collection_name)] in a process that finds the
    file system [fs] and has drawn [n] uuids: the new object when the
    constructor returns. The attributes a constructor has not assigned yet
    do not exist; they are written [[]] until [_load_or_create_index]
    assigns them. *)
Definition VectorStore_init (dir name : string) (fs : Disk) (n : nat)
    : outcome unit * World :=
  _load_or_create_index
    {| store := {| persist_dir := dir; collection_name := name;
                   index := []; metadata := []; documents := [] |};
       disk := fs; entropy := n |}.

(** The loop of [add_documents]: every chunk's dict gets a fresh "id",
    and the dict and the text are appended. The dicts of a batch are
    distinct objects, as [chunk_text] builds them. *)
Fixpoint store_chunks (chunks : list (string * Meta)) : M unit :=
  match chunks with
  | [] => mret ()
  | (text, meta) :: chunks' =>
      uid ← fresh_uuid;
      let meta := <["id" := PyStr uid]> meta in
      self ← get_self;
      set_metadata (metadata self ++ [meta])%list;;
      self ← get_self;
      set_documents (documents self ++ [text])%list;;
      store_chunks chunks'
  end.

(** [add_documents] *)
Definition add_documents (chunks : list (string * Meta)) : M PyVal :=
  let texts := chunks.*1 in
  let embeddings := encode texts in
  let embeddings := normalize_rows embeddings in
  self ← get_self;
  set_index (index_add (index self) embeddings);;
  store_chunks chunks;;
  _save_index;;
  mret PyNone.

(** ** Searching *)

(** One hit of the index: its score and its position. [ranks_before a b]:
    [a] has the higher score, or the scores tie and [a] has the lower
    position. *)
Definition ranks_before (a b : Score * nat) : Prop :=
  score_leb a.1 b.1 = false ∨ (score_leb b.1 a.1 = true ∧ (a.2 ≤ b.2)%nat).

#[global] Instance ranks_before_dec : RelDecision ranks_before.
Proof. intros a b. unfold ranks_before. apply _. Defined.

Definition ranked (hits : list (Score * nat)) : list (Score * nat) :=
  merge_sort ranks_before hits.

(** The score of every row against the query, with the row's position. *)
Definition scored (rows : list Vec) (q : Vec) : list (Score * nat) :=
  imap (λ i v, (inner_product v q, i)) rows.

(** Modelled from the spec: the search of the vector index, that is
    [IndexFlatIP.search] of FAISS on a one-row query, which is not code of
    the repository. The spec (4.3): it returns up to min(k, size) entries
    sorted by descending inner-product score, ties broken by ascending
    position. The result is the pair (scores[0], indices[0]). *)
Definition index_search (rows : list Vec) (q : Vec) (k : Z)
    : list Score * list Z :=
  let hits := take (Z.to_nat k) (ranked (scored rows q)) in
  (hits.*1, Z.of_nat <$> hits.*2).

(** One entry of the list [search] returns: the dict with the keys "text",
    "metadata" and "distance". *)
Record SearchResult : Type := {
  text : string;
  result_metadata : Meta;
  distance : Score;
}.

(** The loop of [search] over [zip(scores[0], indices[0])]. *)
Fixpoint format_results (self : VectorStore) (hits : list (Score * Z))
    : outcome (list SearchResult) :=
  match hits with
  | [] => Ok []
  | (score, idx) :: hits' =>
      if bool_decide (idx ≠ -1) then
        t ← py_getitem (documents self) idx;
        m ← py_getitem (metadata self) idx;
        results ← format_results self hits';
        Ok ({| text := t; result_metadata := m; distance := one_minus score |}
              :: results)
      else format_results self hits'
  end.

(** [search] *)
Definition search (self : VectorStore) (query : string) (top_k : Z)
    : outcome (list SearchResult) :=
  if bool_decide (ntotal self = 0) then Ok []
  else
    let query_embedding := normalize_L2 (encode_text query) in
    let '(scores, indices) :=
      index_search (index self) query_embedding (Z.min top_k (ntotal self)) in
    format_results self (zip scores indices).

(** ** Files of the collection *)

(** [meta.get('filename') == filename] *)
Definition has_filename (filename : string) (meta : Meta) : Prop :=
  meta !! "filename" = Some (PyStr filename).

#[global] Instance has_filename_dec filename meta :
  Decision (has_filename filename meta).
Proof. unfold has_filename. apply _. Defined.

(** [file_exists] *)
Definition file_exists (self : VectorStore) (filename : string) : bool :=
  bool_decide (Exists (has_filename filename) (metadata self)).

(** [delete_file] *)
Definition delete_file (filename : string) : M PyVal :=
  self ← get_self;
  let indices_to_delete :=
    (filter (λ im, has_filename filename im.2) (enumerate (metadata self))).*1 in
  if bool_decide (indices_to_delete = []) then mret PyNone
  else
    let remaining_indices :=
      filter (λ i, i ∉ indices_to_delete) (seq 0 (length (metadata self))) in
    (if bool_decide (remaining_indices ≠ []) then
       remaining_texts ← lift (py_getitems (documents self) remaining_indices);
       let embeddings := encode remaining_texts in
       let embeddings := normalize_rows embeddings in
       let new_index := index_add IndexFlatIP embeddings in
       set_index new_index;;
       self ← get_self;
       ms ← lift (py_getitems (metadata self) remaining_indices);
       set_metadata ms;;
       self ← get_self;
       ds ← lift (py_getitems (documents self) remaining_indices);
       set_documents ds
     else
       set_index IndexFlatIP;;
       set_metadata [];;
       set_documents []);;
    _save_index;;
    mret PyNone.

(** The loop of [reset_database] over the three paths. *)
Fixpoint remove_existing (paths : list string) : M unit :=
  match paths with
  | [] => mret ()
  | path :: paths' =>
      found ← path_exists path;
      (if (found : bool) then os_remove path else mret ());;
      remove_existing paths'
  end.

(** [reset_database] *)
Definition reset_database : M PyVal :=
  set_index IndexFlatIP;;
  set_metadata [];;
  set_documents [];;
  self ← get_self;
  remove_existing [index_path self; metadata_path self; documents_path self];;
  mret PyNone.

(** The dict [get_stats] returns. *)
Record Stats : Type := {
  total_chunks : nat;
  unique_files : nat;
  files : list PyVal;
}.

(** [get_stats]: [files] lists a Python set, in the order the set yields
    its elements. *)
Definition get_stats (self : VectorStore) : Stats :=
  let unique : gset PyVal :=
    list_to_set ((λ meta, default (PyStr "") (meta !! "filename"))
                   <$> metadata self) in
  let unique := unique ∖ {[PyStr ""]} in
  {| total_chunks := length (documents self);
     unique_files := size unique;
     files := elements unique |}.

(** ** The public interface *)

Inductive Op : Type :=
  | AddDocuments (chunks : list (string * Meta))
  | Search (query : string) (top_k : Z)
  | FileExists (filename : string)
  | DeleteFile (filename : string)
  | ResetDatabase
  | GetStats.

(** What a public method gives back. *)
Inductive Ret : Type :=
  | RetVal (v : PyVal)
  | RetResults (rs : list SearchResult)
  | RetBool (b : bool)
  | RetStats (st : Stats).

(** One call of a public method on the store. *)
Definition call (op : Op) : M Ret :=
  match op with
  | AddDocuments chunks => v ← add_documents chunks; mret (RetVal v)
  | Search query top_k =>
      self ← get_self;
      results ← lift (search self query top_k);
      mret (RetResults results)
  | FileExists filename =>
      self ← get_self; mret (RetBool (file_exists self filename))
  | DeleteFile filename => v ← delete_file filename; mret (RetVal v)
  | ResetDatabase => v ← reset_database; mret (RetVal v)
  | GetStats => self ← get_self; mret (RetStats (get_stats self))
  end.

(** ** Stores and the states a process reaches *)

(** The alignment of the catalog with the index: as many dicts as texts,
    and the index holds, position by position, the normalised embedding of
    each text. *)
Definition aligned (self : VectorStore) : Prop :=
  length (metadata self) = length (documents self) ∧
  index self = normalize_rows (encode (documents self)).

(** The three files on [fs] are the snapshot of the store. *)
Definition snapshot_of (self : VectorStore) (fs : gmap string File) : Prop :=
  fs !! index_path self = Some (FaissIndexFile (index self)) ∧
  fs !! metadata_path self = Some (MetadataPickle (metadata self)) ∧
  fs !! documents_path self = Some (DocumentsPickle (documents self)).

(** The states of a process that uses the store through its public
    methods: the store is constructed over a directory without an index
    file, methods are called on it, and the process may end and a later one
    construct the store again over the files it finds. *)
Inductive reachable : World → Prop :=
  | reachable_init (dir name : string) (fs : gmap string File) (n : nat)
      (w : World) :
      fs !! os_path_join dir (name +:+ ".index") = None →
      VectorStore_init dir name fs n = (Ok (), w) →
      reachable w
  | reachable_call (op : Op) (w : World) :
      reachable w → reachable (call op w).2
  | reachable_restart (w : World) (n : nat) (w' : World) :
      reachable w →
      VectorStore_init (persist_dir (store w)) (collection_name (store w))
        (disk w) n = (Ok (), w') →
      reachable w'.

(** ** Derived notions, used to state what the methods do *)

Definition set_disk (w : World) (fs : gmap string File) : World :=
  {| store := store w; disk := fs; entropy := entropy w |}.

(** The snapshot [_save_index] leaves on a disk. *)
Definition saved (self : VectorStore) (fs : gmap string File) : gmap string File :=
  <[documents_path self := DocumentsPickle (documents self)]>
    (<[metadata_path self := MetadataPickle (metadata self)]>
       (<[index_path self := FaissIndexFile (index self)]> fs)).

(** The dicts [add_documents] appends, when [n] uuids were drawn before. *)
Definition stamped (n : nat) (chunks : list (string * Meta)) : list Meta :=
  imap (λ i c, <["id" := PyStr (uuid4 (n + i))]> c.2) chunks.

(** The chunks [delete_file] keeps: text and dict, in catalog order. *)
Definition retained (filename : string) (self : VectorStore)
    : list (string * Meta) :=
  filter (λ tm, ¬ has_filename filename tm.2)
    (zip (documents self) (metadata self)).

(** The store after [delete_file] has removed a file that was present. *)
Definition rebuilt (filename : string) (self : VectorStore) : VectorStore :=
  {| persist_dir := persist_dir self;
     collection_name := collection_name self;
     index := normalize_rows (encode (retained filename self).*1);
     metadata := filter (λ m, ¬ has_filename filename m) (metadata self);
     documents := (retained filename self).*1 |}.

(** The store object of a collection that holds nothing. *)
Definition emptied (self : VectorStore) : VectorStore :=
  {| persist_dir := persist_dir self;
     collection_name := collection_name self;
     index := []; metadata := []; documents := [] |}.

(** What holds of every reachable state: the store is aligned, and the
    disk either has no index file while the store is empty, or holds the
    snapshot of the store. *)
Definition consistent (w : World) : Prop :=
  aligned (store w) ∧
  ((disk w !! index_path (store w) = None ∧ store w = emptied (store w))
   ∨ snapshot_of (store w) (disk w)).

(** One result per hit, when the hits are positions of the catalog. *)
Definition result_of_hit (self : VectorStore) (r : SearchResult)
    (h : Score * nat) : Prop :=
  documents self !! h.2 = Some (text r) ∧
  metadata self !! h.2 = Some (result_metadata r) ∧
  distance r = one_minus h.1.

(** The number of catalog entries whose filename is [f]. *)
Definition removed_count (filename : string) (self : VectorStore) : nat :=
  length (filter (has_filename filename) (metadata self)).

End store.

(** ** A backend to run the methods on

    Integers stand in for float32: a text is embedded as its length,
    normalisation leaves a row as it is, the inner product is the product
    and the [n]-th uuid is the digit [n]. *)
Definition example_backend : Backend :=
  {| Vec := Z;
     Score := Z;
     encode_text := λ t, Z.of_nat (String.length t);
     normalize_L2 := λ v, v;
     inner_product := Z.mul;
     score_leb := Z.leb;
     one_minus := λ s, 1 - s;
     uuid4 := λ n, String (ascii_of_nat (48 + n)) "" |}.

(** The dict [chunk_text] builds, without the hash. *)
Definition example_meta (filename : string) (chunk_id : Z) : Meta :=
  <["filename" := PyStr filename]> (<["chunk_id" := PyInt chunk_id]> ∅).

(** The store constructed over an empty directory. *)
Definition example_init : @World example_backend :=
  (VectorStore_init "./faiss_db" "documents" ∅ 0).2.

(** Two chunks of the file "A" and one of the file "B". *)
Definition example_chunks : list (string * Meta) :=
  [("aa", example_meta "A" 0); ("bbbb", example_meta "A" 1);
   ("c", example_meta "B" 0)].

(** The process after [add_documents(example_chunks)]. *)
Definition example_world : @World example_backend :=
  (call (AddDocuments example_chunks) example_init).2.

(** ** Document processing (src/document_processor.py) *)

(** The collaborators of [DocumentProcessor]: [split_text] is
    [RecursiveCharacterTextSplitter.split_text] of the splitter [__init__]
    configures, and [md5_hexdigest s] is
    [hashlib.md5(s.encode()).hexdigest()]. *)
Class TextTools : Type := {
  split_text : string → list string;
  md5_hexdigest : string → string;
}.

(** [chunk_text]: the dict of chunk [i] is built anew in the loop. *)
Definition chunk_text `{TextTools} (text filename : string)
    : list (string * Meta) :=
  let chunks := split_text text in
  (λ ic : nat * string,
     let metadata : Meta :=
       <["chunk_hash" := PyStr (md5_hexdigest ic.2)]>
         (<["chunk_id" := PyInt (Z.of_nat ic.1)]>
            (<["filename" := PyStr filename]> ∅)) in
     (ic.2, metadata))
    <$> enumerate chunks.

(** ** Answer generation (src/gemini_client.py) *)

Definition newline : string := String "010"%char "".

(** [str(v)], as an f-string formats a metadata value. *)
Definition py_str (v : PyVal) : string :=
  match v with
  | PyNone => "None"
  | PyStr s => s
  | PyInt z => pretty z
  end.

(** [sep.join(parts)] *)
Fixpoint str_join (sep : string) (parts : list string) : string :=
  match parts with
  | [] => ""
  | [part] => part
  | part :: parts' => part +:+ sep +:+ str_join sep parts'
  end.

(** The f-string of one context document; [None] stands for the
    [KeyError] that [doc['metadata']['filename']] raises when the dict has
    no such key. The keys 'metadata' and 'text' are there in every dict
    [search] builds. *)
Definition source_block `{Backend} (doc : SearchResult) : option string :=
  match result_metadata doc !! "filename" with
  | Some v => Some ("Source: " +:+ py_str v +:+ newline +:+ text doc)
  | None => None
  end.

(** The prompt, line by line. *)
Definition prompt_of (context query : string) : string :=
  str_join newline
    ["You are Sage AI, a helpful AI assistant. Answer the user's question based on the provided context documents.";
     "";
     "            Context Documents:";
     "            " +:+ context;
     "";
     "            Question: " +:+ query;
     "";
     "            Instructions:";
     "            1. Answer the question based on the provided context";
     "            2. If the context doesn't contain enough information, say so";
     "            3. Cite the source documents when relevant";
     "            4. Be concise but thorough";
     "            5. If the user asks for a summary, provide a brief overview of the main points";
     "            6. If the question is not a question, respond appropriately";
     "";
     "            Answer:    ";
     "        "].

(** What a call of [generate_answer] does: it returns a str, or the
    [KeyError] of the context comprehension leaves it. *)
Inductive Answer : Type :=
  | Returns (s : string)
  | RaisesKeyError (key : string).

(** [generate_answer]. [model prompt] is what
    [self.model.generate_content(prompt)] followed by [response.text]
    yields: the text ([inl]), or the [str(e)] of the exception either
    raised ([inr]). *)
Definition generate_answer `{Backend} (model : string → string + string)
    (query : string) (context_docs : list SearchResult) : Answer :=
  match mapM source_block context_docs with
  | None => RaisesKeyError "filename"
  | Some blocks =>
      let context := str_join (newline +:+ newline) blocks in
      let prompt := prompt_of context query in
      match model prompt with
      | inl response_text => Returns response_text
      | inr e => Returns ("Error generating response: " +:+ e)
      end
  end.

(** ** More example data *)

(** A splitter that cuts a text into its characters, and a digest that is
    the text itself. *)
Fixpoint example_split (text : string) : list string :=
  match text with
  | "" => []
  | String c text' => String c "" :: example_split text'
  end.

Definition example_tools : TextTools :=
  {| split_text := example_split; md5_hexdigest := λ s, s |}.


(** A directory that holds an index file only. *)
Definition example_torn_disk : gmap string (@File example_backend) :=
  {["./faiss_db/documents.index" :=
      @FaissIndexFile example_backend ([2; 4; 1] : list Z)]}.

(** A model whose call always fails. *)
Definition example_failing_model (prompt : string) : string + string :=
  inr "quota exceeded".

(** What [search] returns on the example store for the two best and for
    the best hit. *)
Definition example_results : list (@SearchResult example_backend) :=
  match search (store example_world) "xyz" 2 with
  | Ok results => results
  | Raise _ => []
  end.

Definition example_best : list (@SearchResult example_backend) :=
  match search (store example_world) "xyz" 1 with
  | Ok results => results
  | Raise _ => []
  end.

(** One chunk of a file "C" the example store does not know. *)
Definition example_new_chunks : list (string * Meta) :=
  [("zz", example_meta "C" 0)].

(** A store with three vectors and an empty catalog. *)
Definition example_torn_store : @VectorStore example_backend :=
  @Build_VectorStore example_backend "./faiss_db" "documents"
    ([2; 4; 1] : list Z) [] [].

(** The store with the example chunks and a chunk that names no file,
    and the same over the backend whose uuids never repeat. *)
Definition example_unnamed_world : @World example_backend :=
  (add_documents [("dd", ∅)] example_world).2.


(** * Properties *)

(** ** Indexing *)

Lemma py_getitem_nat {A} (l : list A) (i : nat) :
  py_getitem l (Z.of_nat i) =
  match l !! i with Some a => Ok a | None => Raise IndexError end.
Proof.
  unfold py_getitem.
  rewrite (bool_decide_eq_false_2 (Z.of_nat i < 0)) by lia.
  case_bool_decide as Hi.
  - by rewrite Nat2Z.id.
  - rewrite lookup_ge_None_2; [done | lia].
Qed.

Lemma py_getitem_Ok {A} (l : list A) (i : nat) (a : A) :
  l !! i = Some a → py_getitem l (Z.of_nat i) = Ok a.
Proof. intros H. by rewrite py_getitem_nat, H. Qed.

(** ** The snapshot paths *)

Lemma starts_with_sep_app (n x : string) :
  starts_with_sep x = false →
  starts_with_sep (n +:+ x) = starts_with_sep n.
Proof. intros Hx. destruct n as [|c n]; [exact Hx | done]. Qed.

Lemma os_path_join_suffix_inj (a n x y : string) :
  starts_with_sep x = false → starts_with_sep y = false →
  os_path_join a (n +:+ x) = os_path_join a (n +:+ y) → x = y.
Proof.
  intros Hx Hy. unfold os_path_join.
  rewrite !starts_with_sep_app by done.
  destruct (starts_with_sep n).
  - apply (inj (String.append n)).
  - destruct (bool_decide (a = "") || ends_with_sep a); intros Heq.
    + by apply (inj (String.append n)), (inj (String.append a)).
    + apply (inj (String.append a)) in Heq. simpl in Heq.
      injection Heq as Heq. by apply (inj (String.append n)).
Qed.

(** ** Comprehensions over [enumerate] *)

Section comprehensions.
Context {A C : Type} (Q : C → Prop) `{!∀ c, Decision (Q c)}.

(** The positions of [ms] (counted from [k]) whose entry satisfies [Q] are
    the positions of [range] that pass a test agreeing with [Q]. *)
Lemma filter_seq_enumerate (R : nat → Prop) `{!∀ i, Decision (R i)}
    (ms : list C) (k : nat) :
  (∀ j m, ms !! j = Some m → (R (k + j)%nat ↔ Q m)) →
  filter R (seq k (length ms)) =
  (filter (λ im, Q im.2) (imap (λ j m, ((k + j)%nat, m)) ms)).*1.
Proof.
  revert k. induction ms as [|m ms IH]; intros k HR; [done|].
  cbn [length seq]. rewrite imap_cons, !filter_cons. cbn [snd].
  assert (R k ↔ Q m) as Hk.
  { rewrite <-(HR 0%nat m) by done. by rewrite Nat.add_0_r. }
  assert (filter R (seq (S k) (length ms)) =
          (filter (λ im, Q im.2)
             (imap ((λ j m0, ((k + j)%nat, m0)) ∘ S) ms)).*1) as Htl.
  { rewrite (IH (S k)).
    - do 2 f_equal. apply imap_ext. intros j x _. cbn. f_equal. lia.
    - intros j x Hj. replace (S k + j)%nat with (k + S j)%nat by lia.
      by apply HR. }
  destruct (decide (R k)) as [HRk|HRk], (decide (Q m)) as [HQ|HQ];
    try tauto; cbn; by rewrite Htl, ?Nat.add_0_r.
Qed.

(** Reading [l] at the positions [enumerate] selects from [ms]. *)
Lemma py_getitems_selected (pre l : list A) (ms : list C) :
  (length ms ≤ length l)%nat →
  py_getitems (pre ++ l)
    (filter (λ im, Q im.2) (imap (λ j m, ((length pre + j)%nat, m)) ms)).*1 =
  Ok (filter (λ tm, Q tm.2) (zip l ms)).*1.
Proof.
  revert pre l. induction ms as [|m ms IH]; intros pre l Hlen;
    [by destruct l|].
  destruct l as [|x l]; [cbn in Hlen; lia|].
  rewrite imap_cons. cbn [zip zip_with]. rewrite !filter_cons. cbn [snd].
  assert (py_getitems (pre ++ x :: l)
            (filter (λ im, Q im.2)
               (imap ((λ j m0, ((length pre + j)%nat, m0)) ∘ S) ms)).*1 =
          Ok (filter (λ tm, Q tm.2) (zip l ms)).*1) as Htl.
  { rewrite <-(IH (pre ++ [x]) l) by (cbn in Hlen; lia).
    rewrite <-app_assoc. cbn. do 3 f_equal.
    apply imap_ext. intros j c _. cbn. f_equal. rewrite length_app. cbn. lia. }
  destruct (decide (Q m)); [|done].
  cbn [fmap list_fmap fst py_getitems].
  rewrite (py_getitem_Ok _ _ x), Htl; [done|].
  rewrite Nat.add_0_r. by rewrite list_lookup_middle.
Qed.

Lemma filter_zip_snd (l : list A) (ms : list C) :
  (length ms ≤ length l)%nat →
  (filter (λ tm, Q tm.2) (zip l ms)).*2 = filter Q ms.
Proof.
  revert l. induction ms as [|m ms IH]; intros [|x l] Hlen;
    try done; cbn in Hlen; [lia|].
  cbn [zip zip_with]. rewrite !filter_cons. cbn [snd].
  destruct (decide (Q m)); cbn; rewrite IH by lia; done.
Qed.

Lemma filter_zip_diag (ms : list C) :
  (filter (λ tm, Q tm.2) (zip ms ms)).*1 = filter Q ms.
Proof.
  induction ms as [|m ms IH]; [done|].
  cbn [zip zip_with]. rewrite !filter_cons. cbn [snd].
  destruct (decide (Q m)); cbn; by rewrite IH.
Qed.

End comprehensions.

Section properties.
Context `{B : Backend}.

Lemma index_metadata_paths (self : VectorStore) :
  index_path self ≠ metadata_path self.
Proof.
  intros H. by apply os_path_join_suffix_inj in H.
Qed.

Lemma index_documents_paths (self : VectorStore) :
  index_path self ≠ documents_path self.
Proof.
  intros H. by apply os_path_join_suffix_inj in H.
Qed.

Lemma metadata_documents_paths (self : VectorStore) :
  metadata_path self ≠ documents_path self.
Proof.
  intros H. by apply os_path_join_suffix_inj in H.
Qed.

(** ** Running the methods *)

Ltac run_M :=
  repeat (progress
    (unfold mbind, M_bind, mret, M_ret, get_self, lift, set_index,
       set_metadata, set_documents, update_self, write_file, path_exists,
       fresh_uuid; cbn)).

Lemma World_eta (w : World) :
  {| store := store w; disk := disk w; entropy := entropy w |} = w.
Proof. by destruct w. Qed.

Lemma save_index_run (w : World) :
  _save_index w = (Ok (), set_disk w (saved (store w) (disk w))).
Proof. reflexivity. Qed.

Lemma store_chunks_run (chunks : list (string * Meta)) (w : World) :
  store_chunks chunks w =
  (Ok (),
   {| store :=
        with_documents
          (with_metadata (store w)
             (metadata (store w) ++ stamped (entropy w) chunks))
          (documents (store w) ++ chunks.*1);
      disk := disk w;
      entropy := (entropy w + length chunks)%nat |}).
Proof.
  revert w. induction chunks as [|[t m] chunks IH]; intros [[d c i ms ds] fs n].
  - cbn. by rewrite !app_nil_r, Nat.add_0_r.
  - cbn [store_chunks]. run_M. rewrite IH. cbn.
    unfold with_documents, with_metadata, stamped. cbn.
    rewrite <-!app_assoc. cbn. rewrite Nat.add_0_r.
    rewrite (imap_ext _ ((λ i0 c0, <["id":=PyStr (uuid4 (n + i0))]> c0.2) ∘ S) chunks)
      by (intros j x _; cbn; do 3 f_equal; lia).
    by rewrite Nat.add_succ_r.
Qed.

Lemma add_documents_run (chunks : list (string * Meta)) (w : World) :
  add_documents chunks w =
  let self :=
    {| persist_dir := persist_dir (store w);
       collection_name := collection_name (store w);
       index := index (store w) ++ normalize_rows (encode chunks.*1);
       metadata := metadata (store w) ++ stamped (entropy w) chunks;
       documents := documents (store w) ++ chunks.*1 |} in
  (Ok PyNone,
   {| store := self; disk := saved self (disk w);
      entropy := (entropy w + length chunks)%nat |}).
Proof.
  unfold add_documents. run_M. rewrite store_chunks_run. reflexivity.
Qed.

(** *** [delete_file] *)

Lemma elem_of_indices_to_delete (filename : string) (ms : list Meta) (i : nat) :
  i ∈ (filter (λ im, has_filename filename im.2) (enumerate ms)).*1 ↔
  ∃ m, ms !! i = Some m ∧ has_filename filename m.
Proof.
  rewrite list_elem_of_fmap. split.
  - intros [[j m] [-> [Hm Hin]%list_elem_of_filter]].
    apply elem_of_lookup_imap in Hin as (k & y & [= -> ->] & Hk). eauto.
  - intros (m & Hi & Hm). exists (i, m). split; [done|].
    apply list_elem_of_filter. split; [done|].
    apply elem_of_lookup_imap. eauto.
Qed.

Lemma indices_to_delete_nil (filename : string) (ms : list Meta) :
  (filter (λ im, has_filename filename im.2) (enumerate ms)).*1 = [] ↔
  ¬ Exists (has_filename filename) ms.
Proof.
  rewrite Exists_exists. split.
  - intros Hnil (m & [i Hi]%list_elem_of_lookup & Hm).
    assert (i ∈ (filter (λ im, has_filename filename im.2) (enumerate ms)).*1)
      as Hin by (apply elem_of_indices_to_delete; eauto).
    rewrite Hnil in Hin. by apply not_elem_of_nil in Hin.
  - intros Hno.
    destruct (filter _ (enumerate ms)).*1 as [|i idxs] eqn:Heq; [done|].
    assert (i ∈ (filter (λ im, has_filename filename im.2) (enumerate ms)).*1)
      as Hin by (rewrite Heq; left).
    apply elem_of_indices_to_delete in Hin as (m & Hi & Hm).
    destruct Hno. exists m. split; [|done]. by eapply list_elem_of_lookup_2.
Qed.

Lemma remaining_indices_enumerate (filename : string) (ms : list Meta) :
  filter (λ i, i ∉ (filter (λ im, has_filename filename im.2)
                      (enumerate ms)).*1)
    (seq 0 (length ms)) =
  (filter (λ im, ¬ has_filename filename im.2) (enumerate ms)).*1.
Proof.
  rewrite (filter_seq_enumerate (λ m, ¬ has_filename filename m) _ ms 0);
    [reflexivity|].
  intros j m Hj. cbn. rewrite elem_of_indices_to_delete. split.
  - intros Hno Hm. apply Hno. eauto.
  - intros Hno (m' & Hj' & Hm'). congruence.
Qed.

Lemma py_getitems_remaining {A} (filename : string) (l : list A)
    (ms : list Meta) :
  (length ms ≤ length l)%nat →
  py_getitems l
    (filter (λ im, ¬ has_filename filename im.2) (enumerate ms)).*1 =
  Ok (filter (λ tm, ¬ has_filename filename tm.2) (zip l ms)).*1.
Proof.
  intros Hlen.
  exact (py_getitems_selected (λ m, ¬ has_filename filename m) [] l ms Hlen).
Qed.

Lemma remaining_diag (filename : string) (ms : list Meta) :
  (filter (λ tm, ¬ has_filename filename tm.2) (zip ms ms)).*1 =
  filter (λ m, ¬ has_filename filename m) ms.
Proof. exact (filter_zip_diag (λ m, ¬ has_filename filename m) ms). Qed.

Lemma remaining_snd {A} (filename : string) (l : list A) (ms : list Meta) :
  (length ms ≤ length l)%nat →
  (filter (λ tm, ¬ has_filename filename tm.2) (zip l ms)).*2 =
  filter (λ m, ¬ has_filename filename m) ms.
Proof. exact (filter_zip_snd (λ m, ¬ has_filename filename m) l ms). Qed.

Lemma delete_file_absent (filename : string) (w : World) :
  ¬ Exists (has_filename filename) (metadata (store w)) →
  delete_file filename w = (Ok PyNone, w).
Proof.
  intros Hno%indices_to_delete_nil. unfold delete_file. run_M.
  by rewrite Hno.
Qed.

Lemma delete_file_present (filename : string) (w : World) :
  length (metadata (store w)) = length (documents (store w)) →
  Exists (has_filename filename) (metadata (store w)) →
  delete_file filename w =
  (Ok PyNone,
   {| store := rebuilt filename (store w);
      disk := saved (rebuilt filename (store w)) (disk w);
      entropy := entropy w |}).
Proof.
  intros Hlen Hex. unfold delete_file. run_M.
  rewrite bool_decide_eq_false_2
    by (intros Hnil%indices_to_delete_nil; done).
  rewrite remaining_indices_enumerate.
  pose proof (py_getitems_remaining filename (documents (store w))
                (metadata (store w)) ltac:(lia)) as Hds.
  pose proof (py_getitems_remaining filename (metadata (store w))
                (metadata (store w)) ltac:(lia)) as Hms.
  rewrite remaining_diag in Hms.
  fold (retained filename (store w)) in Hds.
  case_bool_decide as Hrem.
  - run_M. rewrite Hds. run_M. rewrite Hms. run_M. reflexivity.
  - rewrite Hrem in Hds, Hms.
    injection Hds as Hds. injection Hms as Hms.
    run_M. unfold rebuilt. rewrite <-Hds, <-Hms. reflexivity.
Qed.

(** *** [reset_database] *)

Lemma remove_existing_run (paths : list string) (w : World) :
  remove_existing paths w =
  (Ok (), set_disk w (foldl (λ fs path, delete path fs) (disk w) paths)).
Proof.
  revert w. induction paths as [|path paths IH]; intros w.
  - cbn. unfold set_disk. by rewrite World_eta.
  - cbn [remove_existing foldl]. run_M. unfold os_remove.
    destruct (disk w !! path) as [f|] eqn:Hpath.
    + rewrite bool_decide_eq_true_2 by eauto. run_M. rewrite Hpath.
      by rewrite IH.
    + rewrite bool_decide_eq_false_2 by (by intros [? ?]). run_M.
      rewrite IH. unfold set_disk. cbn. by rewrite delete_id.
Qed.

Lemma reset_database_run (w : World) :
  reset_database w =
  (Ok PyNone,
   {| store := emptied (store w);
      disk := delete (documents_path (store w))
                (delete (metadata_path (store w))
                   (delete (index_path (store w)) (disk w)));
      entropy := entropy w |}).
Proof.
  unfold reset_database, mbind, M_bind, set_index, set_metadata,
    set_documents, update_self, get_self.
  cbn -[remove_existing]. rewrite remove_existing_run. reflexivity.
Qed.

(** *** [_load_or_create_index] *)

Lemma load_fresh (w : World) :
  disk w !! index_path (store w) = None →
  _load_or_create_index w =
  (Ok (), {| store := emptied (store w); disk := disk w; entropy := entropy w |}).
Proof.
  intros Hnone. unfold _load_or_create_index. run_M.
  rewrite Hnone. rewrite bool_decide_eq_false_2 by (by intros [? ?]).
  reflexivity.
Qed.

Lemma load_snapshot (w : World) (self : VectorStore) :
  persist_dir self = persist_dir (store w) →
  collection_name self = collection_name (store w) →
  snapshot_of self (disk w) →
  _load_or_create_index w =
  (Ok (), {| store := self; disk := disk w; entropy := entropy w |}).
Proof.
  destruct self as [d c i ms ds]. cbn. intros -> -> (Hi & Hms & Hds).
  unfold index_path, metadata_path, documents_path in *. cbn in *.
  unfold _load_or_create_index. run_M.
  unfold index_path, metadata_path, documents_path,
    read_index, load_metadata, load_documents.
  rewrite Hi. rewrite bool_decide_eq_true_2 by eauto.
  run_M. rewrite Hi. run_M. rewrite Hms. run_M. rewrite Hds. reflexivity.
Qed.

Lemma saved_snapshot (self : VectorStore) (fs : gmap string File) :
  snapshot_of self (saved self fs).
Proof.
  pose proof (index_metadata_paths self).
  pose proof (index_documents_paths self).
  pose proof (metadata_documents_paths self).
  unfold snapshot_of, saved. split_and!.
  - rewrite !lookup_insert_ne by done. apply lookup_insert_eq.
  - rewrite lookup_insert_ne by done. apply lookup_insert_eq.
  - apply lookup_insert_eq.
Qed.

(** ** The alignment invariant *)

Lemma aligned_emptied (self : VectorStore) : aligned (emptied self).
Proof. by split. Qed.

Lemma length_stamped (n : nat) (chunks : list (string * Meta)) :
  length (stamped n chunks) = length chunks.
Proof. apply length_imap. Qed.

Lemma retained_length (filename : string) (self : VectorStore) :
  length (metadata self) = length (documents self) →
  length (filter (λ m, ¬ has_filename filename m) (metadata self)) =
  length (retained filename self).*1.
Proof.
  intros Hlen. unfold retained.
  rewrite <-(remaining_snd filename (documents self) (metadata self)) by lia.
  by rewrite !length_fmap.
Qed.

Lemma aligned_rebuilt (filename : string) (self : VectorStore) :
  length (metadata self) = length (documents self) →
  aligned (rebuilt filename self).
Proof. intros Hlen. split; [by apply retained_length | done]. Qed.

Lemma add_documents_consistent (chunks : list (string * Meta)) (w : World) :
  aligned (store w) → consistent (add_documents chunks w).2.
Proof.
  intros [Hlen Hidx]. rewrite add_documents_run. cbn. split.
  - split; cbn.
    + rewrite !length_app, length_stamped, length_fmap. lia.
    + rewrite Hidx. unfold normalize_rows, encode. by rewrite !fmap_app.
  - right. apply saved_snapshot.
Qed.

Lemma delete_file_consistent (filename : string) (w : World) :
  consistent w → consistent (delete_file filename w).2.
Proof.
  intros Hw.
  destruct (decide (Exists (has_filename filename) (metadata (store w))))
    as [Hex|Hno].
  - rewrite delete_file_present by (done || apply Hw). cbn. split.
    + apply aligned_rebuilt, Hw.
    + right. apply saved_snapshot.
  - by rewrite delete_file_absent.
Qed.

Lemma reset_database_consistent (w : World) :
  consistent (reset_database w).2.
Proof.
  rewrite reset_database_run. cbn. split; [apply aligned_emptied|].
  left. split; [|done]. cbn.
  change (index_path (emptied (store w))) with (index_path (store w)).
  rewrite !lookup_delete_ne
    by (apply not_eq_sym;
        (apply index_metadata_paths || apply index_documents_paths)).
  apply lookup_delete_eq.
Qed.

Lemma call_consistent (op : Op) (w : World) :
  consistent w → consistent (call op w).2.
Proof.
  intros Hw. destruct op as [chunks|query top_k|filename|filename| |]; cbn.
  - pose proof (add_documents_consistent chunks w (proj1 Hw)) as H.
    unfold mbind, M_bind. by destruct (add_documents chunks w) as [[v|e] w'].
  - run_M. by destruct (search (store w) query top_k).
  - done.
  - pose proof (delete_file_consistent filename w Hw) as H.
    unfold mbind, M_bind. by destruct (delete_file filename w) as [[v|e] w'].
  - pose proof (reset_database_consistent w) as H.
    unfold mbind, M_bind. by destruct (reset_database w) as [[v|e] w'].
  - done.
Qed.

Lemma init_consistent (dir name : string) (fs : gmap string File) (n : nat)
    (w : World) :
  fs !! os_path_join dir (name +:+ ".index") = None →
  VectorStore_init dir name fs n = (Ok (), w) →
  consistent w.
Proof.
  intros Hnone. unfold VectorStore_init. rewrite load_fresh by done.
  intros [= <-]. split; [apply aligned_emptied|]. left. by split.
Qed.

(** A process that constructs the store again finds it as the last one
    left it. *)
Lemma restart_store (w : World) (n : nat) (w' : World) :
  consistent w →
  VectorStore_init (persist_dir (store w)) (collection_name (store w))
    (disk w) n = (Ok (), w') →
  store w' = store w ∧ disk w' = disk w.
Proof.
  intros [_ [[Hnone Hempty]|Hsnap]]; unfold VectorStore_init.
  - rewrite load_fresh by done. intros [= <-]. cbn. by rewrite Hempty.
  - rewrite (load_snapshot _ (store w)) by done. by intros [= <-].
Qed.

Lemma reachable_consistent (w : World) : reachable w → consistent w.
Proof.
  induction 1 as [dir name fs n w Hnone Hinit|op w _ IH|w n w' _ IH Hinit].
  - by eapply init_consistent.
  - by apply call_consistent.
  - destruct (restart_store w n w' IH Hinit) as [Hs Hd].
    unfold consistent. by rewrite Hs, Hd.
Qed.

Lemma aligned_lookup (self : VectorStore) (i : nat) (t : string) :
  aligned self → documents self !! i = Some t →
  index self !! i = Some (normalize_L2 (encode_text t)).
Proof.
  intros [_ ->] Ht. unfold normalize_rows, encode.
  by rewrite !list_lookup_fmap, Ht.
Qed.

Lemma aligned_ntotal (self : VectorStore) :
  aligned self → Z.of_nat (length (documents self)) = ntotal self.
Proof.
  intros [_ Hidx]. unfold ntotal. rewrite Hidx.
  unfold normalize_rows, encode. by rewrite !length_fmap.
Qed.

(** C1. In every state a process reaches through the public methods
    ([add_documents], [search], [delete_file], [reset_database],
    [file_exists], [get_stats]), across restarts, the catalog and the
    index have the same length, [len(metadata) == len(documents) ==
    index.ntotal], and for every position [i] the vector at position [i]
    of the index is the normalised embedding of the text at position
    [i]. *)
Theorem alignment_invariant (w : World) :
  reachable w →
  length (metadata (store w)) = length (documents (store w)) ∧
  Z.of_nat (length (documents (store w))) = ntotal (store w) ∧
  ∀ (i : nat) (t : string),
    documents (store w) !! i = Some t →
    index (store w) !! i = Some (normalize_L2 (encode_text t)).
Proof.
  intros [Hal _]%reachable_consistent. split_and!.
  - apply Hal.
  - by apply aligned_ntotal.
  - intros i t. by apply aligned_lookup.
Qed.

(** ** Searching *)

Lemma py_getitem_elem_of {A} (l : list A) (i : Z) (a : A) :
  py_getitem l i = Ok a → a ∈ l.
Proof.
  unfold py_getitem. cbn. case_bool_decide; [|done].
  destruct (l !! _) as [a'|] eqn:Ha; [|done].
  intros [= <-]. by eapply list_elem_of_lookup_2.
Qed.

(** Whatever [search] returns was read from the catalog. *)
Lemma format_results_elem_of (self : VectorStore) (hits : list (Score * Z))
    (results : list SearchResult) :
  format_results self hits = Ok results →
  Forall (λ r, text r ∈ documents self ∧ result_metadata r ∈ metadata self)
    results.
Proof.
  revert results. induction hits as [|[score idx] hits IH]; intros results.
  - intros [= <-]. constructor.
  - cbn [format_results]. case_bool_decide; [|by apply IH].
    destruct (py_getitem (documents self) idx) as [t|] eqn:Ht; [|done].
    destruct (py_getitem (metadata self) idx) as [m|] eqn:Hm; [|done].
    destruct (format_results self hits) as [rs|] eqn:Hrs; [|done].
    cbn. intros [= <-]. constructor; [|by apply IH].
    cbn. split; by eapply py_getitem_elem_of.
Qed.

Lemma search_elem_of (self : VectorStore) (query : string) (top_k : Z)
    (results : list SearchResult) :
  search self query top_k = Ok results →
  Forall (λ r, text r ∈ documents self ∧ result_metadata r ∈ metadata self)
    results.
Proof.
  unfold search. case_bool_decide; [intros [= <-]; constructor|].
  destruct (index_search _ _ _) as [scores indices].
  apply format_results_elem_of.
Qed.

(** The hits of the index as the loop of [search] sees them. *)
Lemma index_search_zip (rows : list Vec) (q : Vec) (k : Z) :
  zip (index_search rows q k).1 (index_search rows q k).2 =
  (λ h, (h.1, Z.of_nat h.2)) <$> take (Z.to_nat k) (ranked (scored rows q)).
Proof.
  unfold index_search. cbn.
  induction (take _ _) as [|[s p] hits IH]; [done|]. cbn. by rewrite IH.
Qed.

Lemma format_results_hits (self : VectorStore) (hits : list (Score * nat)) :
  Forall (λ h, (h.2 < length (documents self))%nat
               ∧ (h.2 < length (metadata self))%nat) hits →
  ∃ results,
    format_results self ((λ h, (h.1, Z.of_nat h.2)) <$> hits) = Ok results ∧
    Forall2 (result_of_hit self) results hits.
Proof.
  induction 1 as [|[s p] hits [Hd Hm] _ (rs & Hrs & IH)].
  - exists []. by split.
  - cbn in Hd, Hm.
    apply lookup_lt_is_Some_2 in Hd as [t Ht].
    apply lookup_lt_is_Some_2 in Hm as [m Hm].
    exists ({| text := t; result_metadata := m; distance := one_minus s |}
              :: rs).
    split; [|by constructor].
    cbn [fmap list_fmap format_results fst snd].
    rewrite bool_decide_eq_true_2 by lia.
    rewrite (py_getitem_Ok _ _ t), (py_getitem_Ok _ _ m) by done.
    cbn. by rewrite Hrs.
Qed.

Lemma scored_lookup (rows : list Vec) (q : Vec) (s : Score) (p : nat) :
  (s, p) ∈ scored rows q ↔
  ∃ v, rows !! p = Some v ∧ s = inner_product v q.
Proof.
  unfold scored. rewrite elem_of_lookup_imap. split.
  - intros (i & v & [= -> ->] & Hv). eauto.
  - intros (v & Hv & ->). eauto.
Qed.

Lemma scored_positions (rows : list Vec) (q : Vec) :
  (scored rows q).*2 = seq 0 (length rows).
Proof.
  unfold scored. rewrite fmap_imap.
  rewrite (imap_ext _ (λ i _, i) rows) by done.
  by rewrite imap_seq_0, list_fmap_id.
Qed.

Lemma ranked_Permutation (hits : list (Score * nat)) : ranked hits ≡ₚ hits.
Proof. apply merge_sort_Permutation. Qed.

Lemma ranked_positions (rows : list Vec) (q : Vec) :
  (ranked (scored rows q)).*2 ≡ₚ seq 0 (length rows).
Proof. by rewrite ranked_Permutation, scored_positions. Qed.

Lemma ranked_lookup (rows : list Vec) (q : Vec) (s : Score) (p : nat) :
  (s, p) ∈ ranked (scored rows q) ↔
  ∃ v, rows !! p = Some v ∧ s = inner_product v q.
Proof. by rewrite ranked_Permutation, scored_lookup. Qed.

Lemma length_ranked (rows : list Vec) (q : Vec) :
  length (ranked (scored rows q)) = length rows.
Proof.
  rewrite ranked_Permutation. unfold scored. by rewrite length_imap.
Qed.

(** On an aligned store [search] returns, and returns the first
    [min(top_k, ntotal)] hits of the ranking. *)
Lemma search_returns (self : VectorStore) (query : string) (top_k : Z) :
  aligned self →
  ∃ results,
    search self query top_k = Ok results ∧
    Forall2 (result_of_hit self) results
      (take (Z.to_nat (Z.min top_k (ntotal self)))
         (ranked (scored (index self) (normalize_L2 (encode_text query))))).
Proof.
  intros Hal. pose proof (aligned_ntotal self Hal) as Hn.
  destruct Hal as [Hlen Hidx]. unfold search.
  case_bool_decide as Hempty.
  - exists []. split; [done|]. unfold ntotal in Hempty.
    destruct (index self) as [|v rows]; [|cbn in Hempty; lia].
    change (ranked (scored [] _)) with (@nil (Score * nat)).
    by rewrite take_nil.
  - set (q := normalize_L2 (encode_text query)).
    set (k := Z.min top_k (ntotal self)).
    pose proof (index_search_zip (index self) q k) as Hzip.
    destruct (index_search (index self) q k) as [scores indices].
    cbn in Hzip. rewrite Hzip.
    apply format_results_hits, Forall_take, Forall_forall.
    intros [s p] (v & Hv & _)%ranked_lookup. cbn.
    apply lookup_lt_Some in Hv. unfold ntotal in Hn. lia.
Qed.

(** *** The order of the results *)

Lemma StronglySorted_lookup_lt {A} (R : relation A) (l : list A)
    (i j : nat) (a b : A) :
  StronglySorted R l → (i < j)%nat →
  l !! i = Some a → l !! j = Some b → R a b.
Proof.
  intros Hl. revert i j. induction Hl as [|x l _ IH Hx]; intros i j Hij Hi Hj.
  - done.
  - destruct j as [|j]; [lia|]. cbn in Hj. destruct i as [|i].
    + injection Hi as <-. rewrite Forall_forall in Hx.
      apply Hx. by eapply list_elem_of_lookup_2.
    + cbn in Hi. apply (IH i j); [lia|done..].
Qed.

Section ranking.
Context `{!ScoreOrder B}.

#[local] Instance ranks_before_total : Total ranks_before.
Proof.
  intros a b. unfold ranks_before.
  destruct (score_leb a.1 b.1) eqn:Hab; [|by left; left].
  destruct (score_leb b.1 a.1) eqn:Hba; [|by right; left].
  destruct (decide (a.2 ≤ b.2)%nat); [left|right]; right; split; [done|lia..].
Qed.

#[local] Instance ranks_before_trans : Transitive ranks_before.
Proof.
  intros a b c. unfold ranks_before. intros Hab Hbc.
  destruct (score_leb a.1 c.1) eqn:Hac; [right|by left].
  destruct Hab as [Hab|[Hba Hpab]], Hbc as [Hbc|[Hcb Hpbc]].
  - destruct (score_leb_total b.1 c.1) as [?|Hcb]; [congruence|].
    pose proof (score_leb_trans _ _ _ Hac Hcb). congruence.
  - pose proof (score_leb_trans _ _ _ Hac Hcb). congruence.
  - pose proof (score_leb_trans _ _ _ Hba Hac). congruence.
  - split; [by eapply score_leb_trans|lia].
Qed.

Lemma ranked_sorted (hits : list (Score * nat)) :
  StronglySorted ranks_before (ranked hits).
Proof. apply StronglySorted_merge_sort; apply _. Qed.

(** In the ranking of an index, an earlier hit scores at least as much as
    a later one, and on equal scores has the lower position. *)
Lemma ranked_order (rows : list Vec) (q : Vec) (i j : nat)
    (a b : Score * nat) :
  (i < j)%nat →
  ranked (scored rows q) !! i = Some a →
  ranked (scored rows q) !! j = Some b →
  score_leb b.1 a.1 = true ∧ (score_leb a.1 b.1 = true → (a.2 < b.2)%nat).
Proof.
  intros Hij Ha Hb.
  assert (a.2 ≠ b.2) as Hne.
  { assert (NoDup (ranked (scored rows q)).*2) as Hnd
      by (rewrite ranked_positions; apply NoDup_seq).
    intros Heq.
    assert (i = j); [|lia].
    apply (NoDup_lookup _ i j a.2 Hnd); rewrite list_lookup_fmap.
    - by rewrite Ha.
    - by rewrite Hb, Heq. }
  destruct (StronglySorted_lookup_lt _ _ i j a b (ranked_sorted _) Hij Ha Hb)
    as [Hab|[Hba Hp]].
  - split; [|congruence].
    destruct (score_leb_total a.1 b.1); [congruence|done].
  - split; [done|lia].
Qed.

(** C2. On an aligned store, and so on every non-empty store a process
    reaches, [search(query, top_k)] for a count [top_k] of at least one
    returns exactly [min(top_k, index.ntotal)] results. They are the first
    hits of a ranking of all positions of the index, in which each hit
    carries the inner product of its normalised stored vector with the
    normalised query vector, an earlier hit scores at least as much as a
    later one, and hits of equal score come in ascending position. Each
    result carries the text and the metadata of its position and the
    distance [1 - score]. Modelled from the spec where the index is
    concerned: see [index_search]. *)
Theorem search_ranking (self : VectorStore) (query : string) (top_k : Z) :
  aligned self → 0 < top_k →
  let q := normalize_L2 (encode_text query) in
  ∃ (ranking : list (Score * nat)) (results : list SearchResult),
    search self query top_k = Ok results ∧
    Z.of_nat (length results) = Z.min top_k (ntotal self) ∧
    ranking.*2 ≡ₚ seq 0 (length (index self)) ∧
    (∀ s p, (s, p) ∈ ranking ↔
            ∃ v, index self !! p = Some v ∧ s = inner_product v q) ∧
    (∀ i j a b, (i < j)%nat →
       ranking !! i = Some a → ranking !! j = Some b →
       score_leb b.1 a.1 = true ∧
       (score_leb a.1 b.1 = true → (a.2 < b.2)%nat)) ∧
    Forall2 (λ r h,
               documents self !! h.2 = Some (text r) ∧
               metadata self !! h.2 = Some (result_metadata r) ∧
               distance r = one_minus h.1)
      results (take (length results) ranking).
Proof.
  intros Hal Hk q.
  destruct (search_returns self query top_k Hal) as (results & Hs & Hres).
  fold q in Hres.
  assert (length results = Z.to_nat (Z.min top_k (ntotal self))) as Hlen.
  { rewrite (Forall2_length _ _ _ Hres), length_take, length_ranked.
    unfold ntotal. lia. }
  exists (ranked (scored (index self) q)), results. split_and!.
  - done.
  - rewrite Hlen. unfold ntotal. lia.
  - apply ranked_positions.
  - intros s p. apply ranked_lookup.
  - intros i j a b. apply ranked_order.
  - by rewrite Hlen.
Qed.

End ranking.

(** ** Deleting a file *)

Lemma filter_all {A} (P : A → Prop) `{!∀ x, Decision (P x)} (l : list A) :
  Forall P l → filter P l = l.
Proof.
  induction 1 as [|x l Hx _ IH]; [done|].
  by rewrite filter_cons_True, IH.
Qed.

Lemma retained_absent (filename : string) (self : VectorStore) :
  ¬ Exists (has_filename filename) (metadata self) →
  retained filename self = zip (documents self) (metadata self).
Proof.
  intros Hno. apply filter_all, Forall_forall. intros [t m] Hin Hm.
  apply Hno, Exists_exists. exists m. split; [|done].
  by apply elem_of_zip_r in Hin.
Qed.

Lemma retained_zip (filename : string) (self : VectorStore) :
  length (metadata self) = length (documents self) →
  zip (retained filename self).*1
    (filter (λ m, ¬ has_filename filename m) (metadata self)) =
  retained filename self.
Proof.
  intros Hlen. unfold retained at 1.
  rewrite <-(remaining_snd filename (documents self) (metadata self)) by lia.
  apply zip_fst_snd.
Qed.

(** What [delete_file] does to an aligned store, in both of its cases. *)
Lemma delete_file_aligned (filename : string) (w : World) :
  aligned (store w) →
  ∃ w',
    delete_file filename w = (Ok PyNone, w') ∧
    aligned (store w') ∧
    metadata (store w') =
      filter (λ m, ¬ has_filename filename m) (metadata (store w)) ∧
    zip (documents (store w')) (metadata (store w')) =
      retained filename (store w).
Proof.
  intros Hal.
  destruct (decide (Exists (has_filename filename) (metadata (store w))))
    as [Hex|Hno].
  - eexists. split; [by apply delete_file_present; [apply Hal|]|]. cbn.
    split_and!; [apply aligned_rebuilt, Hal|done|apply retained_zip, Hal].
  - exists w. split; [by apply delete_file_absent|].
    split_and!; [done| |by rewrite retained_absent].
    symmetry. apply filter_all, Forall_forall. intros m Hin Hm.
    apply Hno, Exists_exists. eauto.
Qed.

(** Whenever [delete_file] returns, on any store, it returns [None] and
    the catalog keeps the dicts whose filename is not [f]. *)
Lemma delete_file_returns (filename : string) (w : World) (v : PyVal)
    (w' : World) :
  delete_file filename w = (Ok v, w') →
  v = PyNone ∧
  metadata (store w') =
    filter (λ m, ¬ has_filename filename m) (metadata (store w)).
Proof.
  destruct (decide (Exists (has_filename filename) (metadata (store w))))
    as [Hex|Hno].
  - unfold delete_file. run_M.
    rewrite bool_decide_eq_false_2
      by (intros Hnil%indices_to_delete_nil; done).
    rewrite remaining_indices_enumerate.
    pose proof (py_getitems_remaining filename (metadata (store w))
                  (metadata (store w)) ltac:(lia)) as Hms.
    rewrite remaining_diag in Hms.
    case_bool_decide as Hrem.
    + run_M.
      destruct (py_getitems (documents (store w)) _) as [ds|e]; [|done].
      run_M. rewrite Hms. run_M. by intros [= <- <-].
    + rewrite Hrem in Hms. injection Hms as Hms.
      run_M. intros [= <- <-]. by rewrite <-Hms.
  - rewrite delete_file_absent by done. intros [= <- <-]. split; [done|].
    symmetry. apply filter_all, Forall_forall. intros m Hin Hm.
    apply Hno, Exists_exists. eauto.
Qed.

(** C3. For every store, once [delete_file(f)] has returned,
    [file_exists(f)] is false and no result that [search] returns, for
    any query and count, has metadata with the filename [f]. On an aligned
    store [delete_file(f)] does return, and [search] afterwards returns
    for every query and every count of at least one. *)
Theorem delete_file_complete (filename : string) (w : World) :
  (aligned (store w) →
   ∃ w',
     delete_file filename w = (Ok PyNone, w') ∧
     ∀ (query : string) (top_k : Z),
       0 < top_k → ∃ results, search (store w') query top_k = Ok results) ∧
  (∀ (v : PyVal) (w' : World),
     delete_file filename w = (Ok v, w') →
     file_exists (store w') filename = false ∧
     ∀ (query : string) (top_k : Z) results,
       search (store w') query top_k = Ok results →
       Forall (λ r, ¬ has_filename filename (result_metadata r)) results).
Proof.
  split.
  - intros Hal.
    destruct (delete_file_aligned filename w Hal) as (w' & Hrun & Hal' & _).
    exists w'. split; [done|]. intros query top_k _.
    destruct (search_returns (store w') query top_k Hal') as (rs & Hrs & _).
    eauto.
  - intros v w' [_ Hms]%delete_file_returns.
    assert (∀ m, m ∈ metadata (store w') → ¬ has_filename filename m) as Hgone.
    { intros m. rewrite Hms. by intros [? _]%list_elem_of_filter. }
    split.
    + apply bool_decide_eq_false. intros (m & Hin & Hm)%Exists_exists.
      by apply (Hgone m).
    + intros query top_k results Hres%search_elem_of.
      eapply Forall_impl; [exact Hres|]. intros r [_ Hr]. by apply Hgone.
Qed.

(** C4. [delete_file(f)] on an aligned store keeps exactly the chunks
    whose metadata filename is not [f]: the pairs of text and metadata of
    the catalog afterwards are those of the catalog before that pass the
    test, unchanged and in their order, at the positions [0..m-1]; and the
    rebuilt index is aligned with them. *)
Theorem delete_file_retains (filename : string) (w : World) :
  aligned (store w) →
  ∃ w',
    delete_file filename w = (Ok PyNone, w') ∧
    zip (documents (store w')) (metadata (store w')) =
      filter (λ tm, ¬ has_filename filename tm.2)
        (zip (documents (store w)) (metadata (store w))) ∧
    length (metadata (store w')) = length (documents (store w')) ∧
    Z.of_nat (length (documents (store w'))) = ntotal (store w') ∧
    ∀ (i : nat) (t : string),
      documents (store w') !! i = Some t →
      index (store w') !! i = Some (normalize_L2 (encode_text t)).
Proof.
  intros Hal.
  destruct (delete_file_aligned filename w Hal) as (w' & Hrun & Hal' & _ & Hzip).
  exists w'. split_and!; [done|done|apply Hal'|by apply aligned_ntotal|].
  intros i t. by apply aligned_lookup.
Qed.

(** C8, as the code has it: for every store, [delete_file(f)] returns
    [None] whenever it returns, and the number of entries it has removed
    from the catalog is the number of entries whose metadata filename
    equals [f] at call time. On an aligned store it does return. *)
Theorem delete_file_removed_count (filename : string) (w : World) :
  (aligned (store w) → ∃ w', delete_file filename w = (Ok PyNone, w')) ∧
  (∀ (v : PyVal) (w' : World),
     delete_file filename w = (Ok v, w') →
     v = PyNone ∧
     length (metadata (store w)) =
       (length (metadata (store w')) + removed_count filename (store w))%nat).
Proof.
  split.
  - intros Hal.
    destruct (delete_file_aligned filename w Hal) as (w' & Hrun & _). eauto.
  - intros v w' [-> Hms]%delete_file_returns. split; [done|].
    rewrite Hms. unfold removed_count.
    rewrite <-(filter_app_complement (has_filename filename)
                 (metadata (store w))) at 1.
    rewrite length_app. lia.
Qed.

(** C10. When no catalog entry has the filename [f], [delete_file(f)]
    returns with the index, the metadata and the documents as they were,
    and with every file on disk as it was. *)
Theorem delete_file_unknown (filename : string) (w : World) :
  ¬ Exists (has_filename filename) (metadata (store w)) →
  ∃ w',
    delete_file filename w = (Ok PyNone, w') ∧
    index (store w') = index (store w) ∧
    metadata (store w') = metadata (store w) ∧
    documents (store w') = documents (store w) ∧
    disk w' = disk w.
Proof.
  intros Hno. exists w. by rewrite delete_file_absent.
Qed.

(** ** Persistence *)

(** C5. Saving a store with [_save_index] and constructing it again over
    the same directory, in the same process with [_load_or_create_index]
    or in a later one, gives a store with the same index, metadata and
    documents, whose [search] returns the same for every query and
    count. This holds for every store, non-empty or not. *)
Theorem save_load_roundtrip (w : World) (n : nat) :
  ∃ w1 w2,
    _save_index w = (Ok (), w1) ∧
    _load_or_create_index w1 = (Ok (), w1) ∧
    VectorStore_init (persist_dir (store w)) (collection_name (store w))
      (disk w1) n = (Ok (), w2) ∧
    index (store w2) = index (store w) ∧
    metadata (store w2) = metadata (store w) ∧
    documents (store w2) = documents (store w) ∧
    ∀ (query : string) (top_k : Z),
      search (store w2) query top_k = search (store w) query top_k.
Proof.
  exists (set_disk w (saved (store w) (disk w))),
    {| store := store w; disk := saved (store w) (disk w); entropy := n |}.
  split_and!.
  - apply save_index_run.
  - rewrite (load_snapshot _ (store w)); [|done|done|apply saved_snapshot].
    reflexivity.
  - unfold VectorStore_init.
    by rewrite (load_snapshot _ (store w)); [|done|done|apply saved_snapshot].
  - done.
  - done.
  - done.
  - done.
Qed.

(** C6. After [reset_database()] the index, the metadata and the
    documents are empty, [get_stats()] counts no chunk and no file, and
    none of the three snapshot files is on disk. *)
Theorem reset_database_clears (w : World) :
  ∃ w',
    reset_database w = (Ok PyNone, w') ∧
    index (store w') = [] ∧
    metadata (store w') = [] ∧
    documents (store w') = [] ∧
    total_chunks (get_stats (store w')) = 0%nat ∧
    unique_files (get_stats (store w')) = 0%nat ∧
    files (get_stats (store w')) = [] ∧
    disk w' !! index_path (store w') = None ∧
    disk w' !! metadata_path (store w') = None ∧
    disk w' !! documents_path (store w') = None.
Proof.
  pose proof (index_metadata_paths (store w)).
  pose proof (index_documents_paths (store w)).
  pose proof (metadata_documents_paths (store w)).
  eexists. split; [apply reset_database_run|]. cbn.
  change (index_path (emptied (store w))) with (index_path (store w)).
  change (metadata_path (emptied (store w))) with (metadata_path (store w)).
  change (documents_path (emptied (store w))) with (documents_path (store w)).
  split_and!; try done.
  - rewrite !lookup_delete_ne by done. apply lookup_delete_eq.
  - rewrite lookup_delete_ne by done. apply lookup_delete_eq.
  - apply lookup_delete_eq.
Qed.

(** C7. On a store whose index holds no vector, [search] returns the
    empty list, for every query and every [top_k], and raises nothing. *)
Theorem search_empty (self : VectorStore) (query : string) (top_k : Z) :
  ntotal self = 0 → search self query top_k = Ok [].
Proof.
  intros Hempty. unfold search. by rewrite bool_decide_eq_true_2.
Qed.

(** ** Statistics *)

(** C9. [get_stats()] counts every text into [total_chunks]; [files]
    lists, each once, the values found under "filename" in the metadata
    other than the empty string, so that an entry with an empty or a
    missing filename adds nothing; and [unique_files] is their number. *)
Theorem get_stats_counts (self : VectorStore) :
  total_chunks (get_stats self) = length (documents self) ∧
  unique_files (get_stats self) = length (files (get_stats self)) ∧
  NoDup (files (get_stats self)) ∧
  ∀ v : PyVal,
    v ∈ files (get_stats self) ↔
    v ≠ PyStr "" ∧ ∃ meta, meta ∈ metadata self ∧ meta !! "filename" = Some v.
Proof.
  unfold get_stats. cbn. split_and!; [done|done|apply NoDup_elements|].
  intros v. rewrite elem_of_elements, elem_of_difference.
  rewrite elem_of_list_to_set, list_elem_of_fmap, not_elem_of_singleton.
  split.
  - intros [(meta & -> & Hin) Hne]. split; [done|]. exists meta.
    split; [done|]. by destruct (meta !! "filename").
  - intros [Hne (meta & Hin & Hv)]. split; [|done]. exists meta.
    by rewrite Hv.
Qed.

End properties.

(** * Further properties of the store *)

Ltac run_methods :=
  repeat (progress
    (unfold mbind, M_bind, mret, M_ret, get_self, lift, set_index,
       set_metadata, set_documents, update_self, write_file, path_exists,
       fresh_uuid; cbn)).

Section store_properties.
Context `{B : Backend}.

(** ** The snapshot files *)

(** X1. Whatever the persistence directory and the collection name, the
    index file, the metadata file and the documents file are three
    different paths: no snapshot file is written over another. *)
Theorem snapshot_paths_distinct (self : VectorStore) :
  index_path self ≠ metadata_path self ∧
  index_path self ≠ documents_path self ∧
  metadata_path self ≠ documents_path self.
Proof.
  split_and!; intros Heq; by apply os_path_join_suffix_inj in Heq.
Qed.

(** X2. A directory that holds an index file but lacks the metadata file,
    or holds both but lacks the documents file, cannot be opened: the
    constructor raises [FileNotFoundError]. *)
Theorem VectorStore_init_torn_snapshot (dir name : string)
    (fs : gmap string File) (n : nat) (rows : list Vec) :
  fs !! os_path_join dir (name +:+ ".index") = Some (FaissIndexFile rows) →
  (fs !! os_path_join dir (name +:+ "_metadata.pkl") = None
   ∨ ∃ ms,
       fs !! os_path_join dir (name +:+ "_metadata.pkl")
         = Some (MetadataPickle ms) ∧
       fs !! os_path_join dir (name +:+ "_documents.pkl") = None) →
  (VectorStore_init dir name fs n).1 = Raise FileNotFoundError.
Proof.
  intros Hi Hrest. unfold VectorStore_init, _load_or_create_index.
  run_methods.
  unfold index_path, metadata_path, documents_path, read_index,
    load_metadata, load_documents. cbn.
  rewrite Hi. rewrite bool_decide_eq_true_2 by eauto. run_methods.
  rewrite Hi. run_methods.
  destruct Hrest as [Hm|(ms & Hm & Hd)]; rewrite Hm; [done|].
  run_methods. by rewrite Hd.
Qed.

(** What [delete_file] leaves behind, on any store: the state as it was
    (no such file, or an [IndexError] on the way), or a store with the
    same directory and name whose catalog lost the dicts of the file and
    whose snapshot was written. *)
Lemma delete_file_cases (filename : string) (w : World) :
  (delete_file filename w).2 = w ∨
  ∃ self,
    persist_dir self = persist_dir (store w) ∧
    collection_name self = collection_name (store w) ∧
    metadata self =
      filter (λ m, ¬ has_filename filename m) (metadata (store w)) ∧
    (delete_file filename w).2 =
      {| store := self; disk := saved self (disk w); entropy := entropy w |}.
Proof.
  destruct (decide (Exists (has_filename filename) (metadata (store w))))
    as [Hex|Hno]; [|left; by rewrite delete_file_absent].
  unfold delete_file. run_methods.
  rewrite bool_decide_eq_false_2
    by (intros Hnil%indices_to_delete_nil; done).
  rewrite remaining_indices_enumerate.
  pose proof (py_getitems_remaining filename (metadata (store w))
                (metadata (store w)) ltac:(lia)) as Hms.
  rewrite remaining_diag in Hms.
  case_bool_decide as Hrem.
  - run_methods.
    destruct (py_getitems (documents (store w)) _) as [ds|e]; [|by left].
    run_methods. rewrite Hms. run_methods. right.
    by exists {| persist_dir := persist_dir (store w);
                 collection_name := collection_name (store w);
                 index := normalize_rows (encode ds);
                 metadata := filter (λ m, ¬ has_filename filename m)
                               (metadata (store w));
                 documents := ds |}.
  - rewrite Hrem in Hms. injection Hms as Hms.
    run_methods. right. by exists (emptied (store w)).
Qed.

(** The directory and the name of the store never change. *)
Lemma call_same_collection (op : Op) (w : World) :
  persist_dir (store (call op w).2) = persist_dir (store w) ∧
  collection_name (store (call op w).2) = collection_name (store w).
Proof.
  destruct op as [chunks|query top_k|filename|filename| |]; cbn.
  - unfold mbind, M_bind. by rewrite add_documents_run.
  - run_methods. by destruct (search (store w) query top_k).
  - done.
  - unfold mbind, M_bind.
    destruct (delete_file_cases filename w) as [Hw|(s & Hd & Hc & _ & Hw)];
      destruct (delete_file filename w) as [[v|e] w']; cbn in *; by subst.
  - unfold mbind, M_bind. by rewrite reset_database_run.
  - done.
Qed.

(** X3. No public method writes or removes anything but the three
    snapshot files: after a call of any of them every other file on the
    disk is as it was, whether the call returned or raised. *)
Theorem call_other_files_untouched (op : Op) (w : World) (path : string) :
  path ≠ index_path (store w) →
  path ≠ metadata_path (store w) →
  path ≠ documents_path (store w) →
  disk (call op w).2 !! path = disk w !! path.
Proof.
  intros Hi Hm Hd.
  assert (∀ self fs,
            persist_dir self = persist_dir (store w) →
            collection_name self = collection_name (store w) →
            saved self fs !! path = fs !! path) as Hsaved.
  { intros self fs Hdir Hname. unfold saved.
    unfold index_path, metadata_path, documents_path in *.
    rewrite Hdir, Hname. by rewrite !lookup_insert_ne. }
  destruct op as [chunks|query top_k|filename|filename| |]; cbn.
  - unfold mbind, M_bind. rewrite add_documents_run. cbn. by apply Hsaved.
  - run_methods. by destruct (search (store w) query top_k).
  - done.
  - unfold mbind, M_bind.
    destruct (delete_file_cases filename w) as [Hw|(s & Hdir & Hc & _ & Hw)];
      destruct (delete_file filename w) as [[v|e] w']; cbn in *; subst;
      cbn; by try apply Hsaved.
  - unfold mbind, M_bind. rewrite reset_database_run. cbn.
    by rewrite !lookup_delete_ne.
  - done.
Qed.


End store_properties.

Section catalog_properties.
Context `{B : Backend}.

(** ** Adding documents *)



Lemma has_filename_id (filename : string) (v : PyVal) (m : Meta) :
  has_filename filename (<["id" := v]> m) ↔ has_filename filename m.
Proof. unfold has_filename. by rewrite lookup_insert_ne. Qed.

Lemma Exists_stamped (filename : string) (n : nat)
    (chunks : list (string * Meta)) :
  Exists (has_filename filename) (stamped n chunks) ↔
  Exists (λ c, has_filename filename c.2) chunks.
Proof.
  rewrite !Exists_exists. unfold stamped. split.
  - intros (m' & (j & [t m] & -> & Hj)%elem_of_lookup_imap & Hm).
    apply has_filename_id in Hm. exists (t, m).
    split; [by eapply list_elem_of_lookup_2|done].
  - intros ([t m] & [j Hj]%list_elem_of_lookup & Hm).
    exists (<["id" := PyStr (uuid4 (n + j))]> m). split.
    + apply elem_of_lookup_imap. by exists j, (t, m).
    + by apply has_filename_id.
Qed.

(** X6. After [add_documents], [file_exists(f)] holds exactly for the
    files that existed before and the files named by a chunk of the
    batch. *)
Theorem add_documents_file_exists (chunks : list (string * Meta)) (w : World)
    (filename : string) :
  file_exists (store (add_documents chunks w).2) filename = true ↔
  file_exists (store w) filename = true
  ∨ Exists (λ c, has_filename filename c.2) chunks.
Proof.
  rewrite add_documents_run. cbn. unfold file_exists. cbn.
  by rewrite !bool_decide_eq_true, Exists_app, Exists_stamped.
Qed.

(** X7. Every dict in the catalog of a state a process reaches carries an
    "id" that is a str: the one [add_documents] gave it. *)
Theorem catalog_ids (w : World) :
  reachable w →
  Forall (λ m : Meta, ∃ u, m !! "id" = Some (PyStr u)) (metadata (store w)).
Proof.
  induction 1 as [dir name fs n w Hnone Hinit|op w Hw IH|w n w' Hw IH Hinit].
  - revert Hinit. unfold VectorStore_init. rewrite load_fresh by done.
    intros [= <-]. constructor.
  - destruct op as [chunks|query top_k|filename|filename| |]; cbn.
    + unfold mbind, M_bind. rewrite add_documents_run. cbn.
      apply Forall_app. split; [done|]. apply Forall_forall.
      unfold stamped. intros m' (j & [t m] & -> & _)%elem_of_lookup_imap.
      eexists. apply lookup_insert_eq.
    + run_methods. by destruct (search (store w) query top_k).
    + done.
    + unfold mbind, M_bind.
      destruct (delete_file_cases filename w) as [Hd|(s & _ & _ & Hms & Hd)];
        destruct (delete_file filename w) as [[v|e] w']; cbn in *; subst;
        cbn; try done; rewrite Hms; apply Forall_forall;
        intros m [_ Hin]%list_elem_of_filter;
        rewrite Forall_forall in IH; by apply IH.
    + unfold mbind, M_bind. rewrite reset_database_run. constructor.
    + done.
  - apply reachable_consistent in Hw.
    destruct (restart_store w n w' Hw Hinit) as [-> _]. done.
Qed.

(** ** Deleting a file *)

(** X8. Deleting a file twice is deleting it once: after a
    [delete_file(f)] that returned, on any store, another [delete_file(f)]
    returns and leaves the store and the disk as they are. *)
Theorem delete_file_twice (filename : string) (w : World) (v : PyVal)
    (w' : World) :
  delete_file filename w = (Ok v, w') →
  delete_file filename w' = (Ok PyNone, w').
Proof.
  intros [_ Hms]%delete_file_returns. apply delete_file_absent.
  rewrite Hms, Exists_exists.
  by intros (m & [Hm _]%list_elem_of_filter & Hf).
Qed.

(** X9. [delete_file(f)] does not make any other file disappear or
    appear: for every other name [g], [file_exists(g)] answers after the
    deletion as it did before. *)
Theorem delete_file_other_files (filename other : string) (w : World)
    (v : PyVal) (w' : World) :
  delete_file filename w = (Ok v, w') →
  other ≠ filename →
  file_exists (store w') other = file_exists (store w) other.
Proof.
  intros [_ Hms]%delete_file_returns Hne. unfold file_exists.
  apply bool_decide_ext. rewrite Hms, !Exists_exists. split.
  - intros (m & [_ Hin]%list_elem_of_filter & Hm). eauto.
  - intros (m & Hin & Hm). exists m. split; [|done].
    apply list_elem_of_filter. split; [|done].
    unfold has_filename in *. congruence.
Qed.

(** ** Statistics *)

(** X10. [get_stats] and [file_exists] agree on every name but the empty
    one: a non-empty name is in [files] exactly if [file_exists] holds of
    it. The empty name is never listed, also when a chunk carries it. *)
Theorem file_exists_listed (self : VectorStore) (filename : string) :
  (filename ≠ "" →
   file_exists self filename = true ↔
   PyStr filename ∈ files (get_stats self)) ∧
  PyStr "" ∉ files (get_stats self).
Proof.
  unfold get_stats, file_exists. cbn. split.
  - intros Hne. rewrite bool_decide_eq_true, Exists_exists.
    rewrite elem_of_elements, elem_of_difference, elem_of_list_to_set.
    rewrite list_elem_of_fmap, not_elem_of_singleton. split.
    + intros (m & Hin & Hm). split; [|congruence]. exists m.
      split; [|done]. by rewrite Hm.
    + intros [(m & Heq & Hin) _]. exists m. split; [done|].
      unfold has_filename. destruct (m !! "filename") as [x|]; cbn in Heq.
      * by rewrite <-Heq.
      * congruence.
  - rewrite elem_of_elements, elem_of_difference, not_elem_of_singleton.
    by intros [_ ?].
Qed.

(** X11. [unique_files] never exceeds the number of dicts in the
    catalog. *)
Theorem unique_files_bound (self : VectorStore) :
  (unique_files (get_stats self) ≤ length (metadata self))%nat.
Proof.
  unfold get_stats. cbn.
  etrans; [apply subseteq_size, subseteq_difference_l; reflexivity|].
  rewrite <-(length_fmap (λ meta : Meta, default (PyStr "") (meta !! "filename"))
               (metadata self)).
  apply submseteq_length, NoDup_submseteq; [apply NoDup_elements|].
  intros x. by rewrite elem_of_elements, elem_of_list_to_set.
Qed.

End catalog_properties.

Section composition_properties.
Context `{B : Backend}.

(** ** Searching any store *)

Lemma format_results_inv (self : VectorStore) (hits : list (Score * nat))
    (results : list SearchResult) :
  format_results self ((λ h, (h.1, Z.of_nat h.2)) <$> hits) = Ok results →
  Forall2 (result_of_hit self) results hits.
Proof.
  revert results. induction hits as [|[s p] hits IH]; intros results.
  - intros [= <-]. constructor.
  - cbn [fmap list_fmap format_results fst snd].
    rewrite bool_decide_eq_true_2 by lia. rewrite !py_getitem_nat.
    destruct (documents self !! p) as [t|] eqn:Ht; [|done].
    destruct (metadata self !! p) as [m|] eqn:Hm; [|done]. cbn.
    destruct (format_results self _) as [rs|] eqn:Hrs; [|done]. cbn.
    intros [= <-]. constructor; [done|]. by apply IH.
Qed.

(** X12. On any store, aligned or not, whatever [search] returns is read
    off the store: every result is the text and the dict found at one and
    the same position of the catalog, a position the index holds, with
    the distance [1 - score] of that position's vector against the
    normalised query; and there are no more results than vectors. *)
Theorem search_results_from_store (self : VectorStore) (query : string)
    (top_k : Z) (results : list SearchResult) :
  search self query top_k = Ok results →
  Forall (λ r, ∃ (p : nat) (v : Vec),
            index self !! p = Some v ∧
            documents self !! p = Some (text r) ∧
            metadata self !! p = Some (result_metadata r) ∧
            distance r =
              one_minus
                (inner_product v (normalize_L2 (encode_text query))))
    results ∧
  (length results ≤ length (index self))%nat.
Proof.
  unfold search. case_bool_decide as Hempty.
  { intros [= <-]. split; [constructor|cbn; lia]. }
  set (q := normalize_L2 (encode_text query)).
  set (k := Z.min top_k (ntotal self)).
  pose proof (index_search_zip (index self) q k) as Hzip.
  destruct (index_search (index self) q k) as [scores indices].
  cbn in Hzip. rewrite Hzip. intros Hres%format_results_inv. split.
  - eapply Forall2_Forall_l; [exact Hres|].
    apply Forall_forall.
    intros [s p] (i & Hin & _)%elem_of_take r (Ht & Hm & Hd).
    apply list_elem_of_lookup_2, ranked_lookup in Hin as (v & Hv & ->).
    by exists p, v.
  - rewrite (Forall2_length _ _ _ Hres), length_take, length_ranked. lia.
Qed.

(** ** Adding, then deleting *)

Lemma filter_none {A} (P : A → Prop) `{!∀ x, Decision (P x)} (l : list A) :
  Forall (λ x, ¬ P x) l → filter P l = [].
Proof.
  induction 1 as [|x l Hx _ IH]; [done|].
  by rewrite filter_cons_False.
Qed.

Lemma VectorStore_ext (s1 s2 : VectorStore) :
  persist_dir s1 = persist_dir s2 →
  collection_name s1 = collection_name s2 →
  index s1 = index s2 →
  metadata s1 = metadata s2 →
  documents s1 = documents s2 →
  s1 = s2.
Proof. destruct s1, s2. cbn. by intros -> -> -> -> ->. Qed.

Lemma stamped_all (filename : string) (n : nat)
    (chunks : list (string * Meta)) :
  Forall (λ c, has_filename filename c.2) chunks →
  Forall (has_filename filename) (stamped n chunks).
Proof.
  intros Hall. apply Forall_forall. unfold stamped.
  intros m' (j & [t m] & -> & Hj)%elem_of_lookup_imap.
  apply has_filename_id. rewrite Forall_forall in Hall.
  apply (Hall (t, m)). by eapply list_elem_of_lookup_2.
Qed.

(** X13. Adding the chunks of a file the store does not know and then
    deleting that file gives the store back: on an aligned store, after
    [add_documents(chunks)] with every chunk named [f] and
    [delete_file(f)], the index, the metadata and the documents are what
    they were. *)
Theorem add_then_delete_file (chunks : list (string * Meta)) (w : World)
    (filename : string) :
  aligned (store w) →
  file_exists (store w) filename = false →
  Forall (λ c, has_filename filename c.2) chunks →
  ∃ w2,
    delete_file filename (add_documents chunks w).2 = (Ok PyNone, w2) ∧
    store w2 = store w.
Proof.
  intros Hal Hnew%bool_decide_eq_false Hall.
  pose proof (add_documents_consistent chunks w Hal) as [Hal1 _].
  destruct (delete_file_aligned filename _ Hal1)
    as (w2 & Hrun & Hal2 & Hms2 & Hzip2).
  exists w2. split; [done|].
  assert (persist_dir (store w2) = persist_dir (store w) ∧
          collection_name (store w2) = collection_name (store w))
    as [Hdir Hname].
  { pose proof (call_same_collection (AddDocuments chunks) w) as Hadd.
    pose proof (call_same_collection (DeleteFile filename)
                  (add_documents chunks w).2) as Hdel.
    cbn in Hadd, Hdel. unfold mbind, M_bind in Hadd, Hdel.
    rewrite Hrun in Hdel. cbn in Hdel.
    destruct (add_documents chunks w) as [[?|?] w1]; cbn in *;
      destruct Hadd as [<- <-]; exact Hdel. }
  rewrite add_documents_run in Hms2, Hzip2. cbn in Hms2, Hzip2.
  destruct Hal as [Hlen Hidx].
  assert (Forall (λ m, ¬ has_filename filename m) (metadata (store w)))
    as Hold.
  { apply Forall_forall. intros m Hin Hm. apply Hnew, Exists_exists. eauto. }
  assert (metadata (store w2) = metadata (store w)) as Hms.
  { rewrite Hms2, filter_app, (filter_all _ _ Hold).
    rewrite filter_none, app_nil_r; [done|].
    eapply Forall_impl; [by apply stamped_all|]. by intros m Hm Hno. }
  assert (documents (store w2) = documents (store w)) as Hds.
  { destruct Hal2 as [Hlen2 _].
    rewrite <-(fst_zip (documents (store w2)) (metadata (store w2))) by lia.
    rewrite Hzip2. unfold retained. cbn.
    rewrite zip_with_app by done. rewrite filter_app.
    rewrite filter_all, filter_none, app_nil_r.
    - apply fst_zip. lia.
    - apply Forall_forall. intros [t m] Hin%elem_of_zip_r Hno. cbn in *.
      pose proof (stamped_all filename (entropy w) chunks Hall) as Hst.
      rewrite Forall_forall in Hst. by apply Hno, Hst.
    - apply Forall_forall. intros [t m] Hin%elem_of_zip_r. cbn.
      rewrite Forall_forall in Hold. by apply Hold. }
  apply VectorStore_ext; try done.
  destruct Hal2 as [_ ->]. by rewrite Hds, Hidx.
Qed.

End composition_properties.

Section statistics_properties.
Context `{B : Backend}.

(** ** Statistics across the mutating methods *)

(** The set [get_stats] builds. *)
Lemma elem_of_file_set (ms : list Meta) (v : PyVal) :
  v ∈ (list_to_set ((λ meta : Meta, default (PyStr "") (meta !! "filename"))
                      <$> ms) ∖ {[PyStr ""]} : gset PyVal) ↔
  v ≠ PyStr "" ∧ ∃ m, m ∈ ms ∧ m !! "filename" = Some v.
Proof.
  rewrite elem_of_difference, elem_of_list_to_set, list_elem_of_fmap.
  rewrite not_elem_of_singleton. split.
  - intros [(m & -> & Hin) Hne]. split; [done|]. exists m.
    split; [done|]. by destruct (m !! "filename").
  - intros [Hne (m & Hin & Hv)]. split; [|done]. exists m. by rewrite Hv.
Qed.

(** X14. Adding a non-empty batch of chunks of one file, with a non-empty
    name the store does not know, makes [get_stats] count one file more
    and as many chunks more as the batch has, and list that name beside
    the ones it listed. *)
Theorem add_documents_new_file_stats (chunks : list (string * Meta))
    (w : World) (filename : string) :
  filename ≠ "" →
  chunks ≠ [] →
  Forall (λ c, has_filename filename c.2) chunks →
  file_exists (store w) filename = false →
  total_chunks (get_stats (store (add_documents chunks w).2)) =
    (total_chunks (get_stats (store w)) + length chunks)%nat ∧
  unique_files (get_stats (store (add_documents chunks w).2)) =
    S (unique_files (get_stats (store w))) ∧
  ∀ v : PyVal,
    v ∈ files (get_stats (store (add_documents chunks w).2)) ↔
    v ∈ files (get_stats (store w)) ∨ v = PyStr filename.
Proof.
  intros Hne Hchunks Hall Hnew%bool_decide_eq_false.
  rewrite add_documents_run. unfold get_stats. cbn.
  assert ((list_to_set ((λ meta : Meta, default (PyStr "") (meta !! "filename")) <$> metadata (store w) ++ stamped (entropy w) chunks)
             ∖ {[PyStr ""]} : gset PyVal) =
          (list_to_set ((λ meta : Meta, default (PyStr "") (meta !! "filename")) <$> metadata (store w)) ∖ {[PyStr ""]})
            ∪ {[PyStr filename]}) as Hset.
  { apply set_eq. intros v.
    rewrite elem_of_union, elem_of_singleton, !elem_of_file_set. split.
    - intros [Hv (m & [Hin|Hin]%elem_of_app & Hm)]; [left; eauto|right].
      pose proof (stamped_all filename (entropy w) chunks Hall) as Hst.
      rewrite Forall_forall in Hst. specialize (Hst m Hin).
      unfold has_filename in Hst. congruence.
    - intros [[Hv (m & Hin & Hm)]| ->].
      + split; [done|]. exists m. split; [|done]. apply elem_of_app. by left.
      + split; [congruence|].
        destruct chunks as [|[t m] chunks]; [done|].
        exists (<["id" := PyStr (uuid4 (entropy w + 0))]> m). split.
        * apply elem_of_app. right. unfold stamped. cbn. left.
        * apply has_filename_id. by inversion Hall. }
  split_and!.
  - by rewrite length_app, length_fmap.
  - rewrite Hset, size_union, size_singleton; [lia|].
    apply disjoint_singleton_r. rewrite elem_of_file_set.
    intros [_ (m & Hin & Hm)]. apply Hnew, Exists_exists. eauto.
  - intros v. rewrite Hset, !elem_of_elements, elem_of_union.
    by rewrite elem_of_singleton.
Qed.

(** X15. Once [delete_file(f)] has returned, on any store, [get_stats]
    lists the names it listed before except [f]; it counts one file less
    if [f] was a non-empty name of the store, and as many as before
    otherwise. *)
Theorem delete_file_stats (filename : string) (w : World) (v : PyVal)
    (w' : World) :
  delete_file filename w = (Ok v, w') →
  (∀ x : PyVal,
     x ∈ files (get_stats (store w')) ↔
     x ∈ files (get_stats (store w)) ∧ x ≠ PyStr filename) ∧
  (filename ≠ "" → file_exists (store w) filename = true →
   S (unique_files (get_stats (store w')))
   = unique_files (get_stats (store w))) ∧
  (filename = "" ∨ file_exists (store w) filename = false →
   unique_files (get_stats (store w'))
   = unique_files (get_stats (store w))).
Proof.
  intros [_ Hms]%delete_file_returns. unfold get_stats. cbn. rewrite Hms.
  set (U := (list_to_set ((λ meta : Meta, default (PyStr "") (meta !! "filename")) <$> metadata (store w)) ∖ {[PyStr ""]}
             : gset PyVal)).
  assert ((list_to_set
             ((λ meta : Meta, default (PyStr "") (meta !! "filename")) <$> filter (λ m, ¬ has_filename filename m)
                      (metadata (store w)))
             ∖ {[PyStr ""]} : gset PyVal) = U ∖ {[PyStr filename]}) as Hset.
  { apply set_eq. intros x. unfold U.
    rewrite elem_of_file_set, elem_of_difference, elem_of_file_set.
    rewrite not_elem_of_singleton. unfold has_filename. split.
    - intros [Hx (m & [Hm Hin]%list_elem_of_filter & Hf)].
      split; [eauto|congruence].
    - intros [[Hx (m & Hin & Hf)] Hxf]. split; [done|]. exists m.
      split; [|done]. apply list_elem_of_filter. split; [congruence|done]. }
  rewrite Hset. split_and!.
  - intros x. rewrite !elem_of_elements, elem_of_difference.
    by rewrite not_elem_of_singleton.
  - intros Hne Hex%bool_decide_eq_true.
    assert (PyStr filename ∈ U) as Hin.
    { unfold U. apply elem_of_file_set. split; [congruence|].
      by apply Exists_exists in Hex. }
    rewrite size_difference by (by apply singleton_subseteq_l).
    rewrite size_singleton.
    assert (size U ≠ 0%nat); [|lia].
    intros Hz%size_empty_iff. by apply Hz in Hin.
  - intros Hcase. f_equal. apply set_eq. intros x.
    rewrite elem_of_difference, not_elem_of_singleton.
    split; [tauto|]. intros Hx. split; [done|]. intros ->.
    unfold U in Hx. apply elem_of_file_set in Hx as [Hx (m & Hin & Hm)].
    destruct Hcase as [->|Hno%bool_decide_eq_false]; [done|].
    apply Hno, Exists_exists. eauto.
Qed.

End statistics_properties.

Section ingestion_properties.
Context `{B : Backend} `{T : TextTools}.

(** ** From a text to the store *)

Lemma enumerate_snd {A} (l : list A) : (enumerate l).*2 = l.
Proof.
  unfold enumerate. rewrite fmap_imap.
  rewrite (imap_ext _ (λ _ x, x) l) by done.
  induction l as [|x l IH]; [done|]. rewrite imap_cons. f_equal. exact IH.
Qed.

Lemma chunk_text_texts (text filename : string) :
  (chunk_text text filename).*1 = split_text text.
Proof.
  unfold chunk_text. cbn. rewrite <-list_fmap_compose.
  rewrite <-(enumerate_snd (split_text text)) at 2. by apply list_fmap_ext.
Qed.

Lemma chunk_text_filename (text filename other : string) (c : string * Meta) :
  c ∈ chunk_text text filename →
  has_filename other c.2 ↔ other = filename.
Proof.
  unfold chunk_text. cbn. intros ([i t] & -> & _)%list_elem_of_fmap. cbn.
  unfold has_filename. rewrite !lookup_insert_ne by done.
  rewrite lookup_insert_eq. split; [by intros [= ->]|by intros ->].
Qed.

Lemma chunk_text_all (text filename : string) :
  Forall (λ c, has_filename filename c.2) (chunk_text text filename).
Proof.
  apply Forall_forall. intros c Hc.
  by apply (chunk_text_filename text filename filename c Hc).
Qed.

(** X16. After the chunks [chunk_text(text, f)] makes of a text are added,
    [file_exists] holds of the names it held of before and, if the
    splitter found at least one chunk in the text, of [f]; a text without
    chunks leaves no trace of its file. *)
Theorem ingest_file_exists (text filename : string) (w : World)
    (other : string) :
  file_exists (store (add_documents (chunk_text text filename) w).2) other
    = true ↔
  file_exists (store w) other = true
  ∨ (other = filename ∧ split_text text ≠ []).
Proof.
  rewrite add_documents_run. cbn. unfold file_exists. cbn.
  rewrite !bool_decide_eq_true, Exists_app, Exists_stamped.
  apply or_iff_compat_l. rewrite Exists_exists. split.
  - intros (c & Hc & Hf).
    split; [by apply (chunk_text_filename text filename other c Hc)|].
    intros Hnil. rewrite <-(chunk_text_texts text filename) in Hnil.
    apply fmap_nil_inv in Hnil. rewrite Hnil in Hc.
    by apply not_elem_of_nil in Hc.
  - intros [-> Hsome].
    destruct (chunk_text text filename) as [|c cs] eqn:Hcs.
    + destruct Hsome. by rewrite <-(chunk_text_texts text filename), Hcs.
    + exists c. split; [left|].
      pose proof (chunk_text_all text filename) as Hall.
      rewrite Hcs in Hall. by inversion Hall.
Qed.

(** X17. Replacing a file, as the application does for an upload whose
    name exists: [delete_file(f)], then [add_documents(chunk_text(text,
    f))]. On an aligned store the deletion returns, and after the two
    calls the texts the catalog holds for [f] are the chunks of the new
    text, in their order, the chunks of every other file are the ones
    held before, in their order, and the store is aligned. *)
Theorem replace_file_chunks (text filename : string) (w : World) :
  aligned (store w) →
  ∃ w1,
    delete_file filename w = (Ok PyNone, w1) ∧
    let w2 := (add_documents (chunk_text text filename) w1).2 in
    (filter (λ tm, has_filename filename tm.2)
       (zip (documents (store w2)) (metadata (store w2)))).*1
      = split_text text ∧
    retained filename (store w2) = retained filename (store w) ∧
    aligned (store w2).
Proof.
  intros Hal.
  destruct (delete_file_aligned filename w Hal)
    as (w1 & Hrun & Hal1 & Hms1 & Hzip1).
  pose proof (add_documents_consistent (chunk_text text filename) w1 Hal1)
    as [Hal2 _].
  exists w1. split; [done|]. cbn zeta.
  revert Hal2. rewrite add_documents_run. cbn. intros Hal2.
  split_and!; [..|done].
  - destruct Hal1 as [Hlen1 _]. rewrite zip_with_app by done.
    rewrite filter_app, fmap_app.
    rewrite filter_none, filter_all.
    + cbn. rewrite fst_zip; [apply chunk_text_texts|].
      by rewrite length_stamped, length_fmap.
    + apply Forall_forall. intros [t m] Hin%elem_of_zip_r. cbn.
      pose proof (stamped_all filename (entropy w1) _
                    (chunk_text_all text filename)) as Hst.
      rewrite Forall_forall in Hst. by apply Hst.
    + apply Forall_forall. intros [t m] Hin%elem_of_zip_r. cbn.
      rewrite Hms1 in Hin. by apply list_elem_of_filter in Hin as [? _].
  - destruct Hal1 as [Hlen1 _]. unfold retained at 1. cbn.
    rewrite zip_with_app by done. rewrite filter_app.
    rewrite filter_all, filter_none, app_nil_r; [exact Hzip1|..].
    + apply Forall_forall. intros [t m] Hin%elem_of_zip_r Hno. cbn in *.
      pose proof (stamped_all filename (entropy w1) _
                    (chunk_text_all text filename)) as Hst.
      rewrite Forall_forall in Hst. by apply Hno, Hst.
    + apply Forall_forall. intros [t m] Hin%elem_of_zip_r. cbn.
      rewrite Hms1 in Hin. by apply list_elem_of_filter in Hin as [? _].
Qed.

End ingestion_properties.

Section answer_properties.
Context `{B : Backend}.

(** ** Answer generation *)

(** X18. [generate_answer] raises [KeyError('filename')] exactly if one
    of the context documents has a metadata dict without "filename"; in
    every other case it returns a str, also when the call of the model
    raises. *)
Theorem generate_answer_outcome (model : string → string + string)
    (query : string) (context_docs : list SearchResult) :
  (generate_answer model query context_docs = RaisesKeyError "filename" ↔
   Exists (λ doc, result_metadata doc !! "filename" = None) context_docs) ∧
  (Forall (λ doc, is_Some (result_metadata doc !! "filename")) context_docs ↔
   ∃ s, generate_answer model query context_docs = Returns s).
Proof.
  assert (is_Some (mapM source_block context_docs) ↔
          Forall (λ doc, is_Some (result_metadata doc !! "filename"))
            context_docs) as Hsome.
  { rewrite mapM_is_Some. apply Forall_iff. intros doc. cbn.
    unfold source_block. destruct (result_metadata doc !! "filename");
      split; intros [? ?]; eauto; done. }
  assert (Exists (λ doc, result_metadata doc !! "filename" = None)
            context_docs ↔
          ¬ Forall (λ doc, is_Some (result_metadata doc !! "filename"))
              context_docs) as Hex.
  { split.
    - intros Hmiss. apply Exists_not_Forall.
      eapply Exists_impl; [exact Hmiss|]. cbn. intros doc -> [? ?]. done.
    - intros Hno%not_Forall_Exists; [|apply _].
      eapply Exists_impl; [exact Hno|]. cbn. intros doc Hdoc.
      by apply eq_None_not_Some. }
  rewrite Hex, <-Hsome. unfold generate_answer.
  destruct (mapM source_block context_docs) as [blocks|].
  - split.
    + split; [by destruct (model _)|]. intros Hno. destruct Hno. eauto.
    + split; [|eauto]. intros _. destruct (model _); eauto.
  - split.
    + split; [|done]. intros _ [? ?]. done.
    + split; [by intros [? ?]|by intros [? ?]].
Qed.

(** X19. The results [search] returns from a store whose every dict names
    a file can always be turned into an answer: [generate_answer] returns
    on them. *)
Theorem generate_answer_after_search (model : string → string + string)
    (self : VectorStore) (query : string) (top_k : Z)
    (results : list SearchResult) :
  Forall (λ m : Meta, is_Some (m !! "filename")) (metadata self) →
  search self query top_k = Ok results →
  ∃ s, generate_answer model query results = Returns s.
Proof.
  intros Hnamed Hres%search_elem_of.
  assert (is_Some (mapM source_block results)) as [blocks Hblocks].
  { apply mapM_is_Some, Forall_forall. intros doc Hdoc.
    rewrite Forall_forall in Hres. rewrite Forall_forall in Hnamed.
    destruct (Hres doc Hdoc) as [_ Hm]. destruct (Hnamed _ Hm) as [v Hv].
    unfold source_block. cbn. rewrite Hv. eauto. }
  unfold generate_answer. rewrite Hblocks. destruct (model _); eauto.
Qed.

(** ** The ids of a batch *)


End answer_properties.

Section search_properties.
Context `{B : Backend}.

(** ** More on searching *)

Lemma result_of_hit_unique (self : VectorStore) (hits : list (Score * nat))
    (r1 r2 : list SearchResult) :
  Forall2 (result_of_hit self) r1 hits →
  Forall2 (result_of_hit self) r2 hits →
  r1 = r2.
Proof.
  intros H1. revert r2.
  induction H1 as [|x h r1 hits (Ht & Hm & Hd) _ IH]; intros r2 H2.
  - by inversion H2.
  - inversion H2 as [|y ? r2' ? (Ht' & Hm' & Hd') Hrest]; subst.
    f_equal; [|by apply IH].
    destruct x, y. cbn in *. congruence.
Qed.

(** X21. Asking for more results only adds results behind: on an aligned
    store, what [search] returns for a count of at least one is the
    beginning of what it returns, for the same query, for any larger
    count. (The ranking of the index is the one of [index_search].) *)
Theorem search_prefix (self : VectorStore) (query : string) (k k' : Z)
    (results results' : list SearchResult) :
  aligned self →
  0 < k → k ≤ k' →
  search self query k = Ok results →
  search self query k' = Ok results' →
  results = take (length results) results'.
Proof.
  intros Hal Hk Hkk Hr Hr'.
  destruct (search_returns self query k Hal) as (r & Hs & Hhits).
  destruct (search_returns self query k' Hal) as (r' & Hs' & Hhits').
  assert (r = results) as -> by congruence.
  assert (r' = results') as -> by congruence.
  set (ranking := ranked (scored (index self)
                            (normalize_L2 (encode_text query)))) in *.
  set (m := Z.to_nat (Z.min k (ntotal self))) in *.
  set (m' := Z.to_nat (Z.min k' (ntotal self))) in *.
  assert (m ≤ m')%nat as Hmm by (unfold m, m'; lia).
  assert (length results = m) as Hlen.
  { rewrite (Forall2_length _ _ _ Hhits), length_take.
    unfold ranking. rewrite length_ranked. unfold m, ntotal. lia. }
  rewrite Hlen.
  apply (result_of_hit_unique self (take m ranking)); [done|].
  replace (take m ranking) with (take m (take m' ranking))
    by (rewrite take_take; f_equal; lia).
  by apply Forall2_take.
Qed.

Lemma format_results_raises (self : VectorStore) (hits : list (Score * Z))
    (e : exn) :
  format_results self hits = Raise e → e = IndexError.
Proof.
  induction hits as [|[s idx] hits IH]; [done|]. cbn [format_results].
  case_bool_decide; [|done].
  assert (∀ {A} (l : list A) (i : Z) e',
            py_getitem l i = Raise e' → e' = IndexError) as Hget.
  { intros A l i e'. unfold py_getitem. cbn.
    case_bool_decide; [|congruence].
    destruct (l !! _); [done|congruence]. }
  destruct (py_getitem (documents self) idx) as [t|e1] eqn:Ht; cbn;
    [|intros [= <-]; by eapply Hget].
  destruct (py_getitem (metadata self) idx) as [m|e2] eqn:Hm; cbn;
    [|intros [= <-]; by eapply Hget].
  destruct (format_results self hits) as [rs|e3]; cbn; [done|].
  intros [= <-]. by apply IH.
Qed.

(** X22. A store that holds fewer texts, or fewer dicts, than vectors
    cannot be searched in full: when [top_k] is at least the number of
    vectors, [search] raises [IndexError]. (Nothing checks a snapshot
    when it is loaded; only aligned stores are safe to search.) *)
Theorem search_torn_store (self : VectorStore) (query : string) (top_k : Z) :
  (length (documents self) < length (index self)
   ∨ length (metadata self) < length (index self))%nat →
  ntotal self ≤ top_k →
  search self query top_k = Raise IndexError.
Proof.
  intros Hshort Hk. unfold search.
  rewrite bool_decide_eq_false_2 by (unfold ntotal; lia).
  set (q := normalize_L2 (encode_text query)).
  set (k := Z.min top_k (ntotal self)).
  pose proof (index_search_zip (index self) q k) as Hzip.
  destruct (index_search (index self) q k) as [scores indices].
  cbn in Hzip. rewrite Hzip.
  destruct (format_results self _) as [results|e] eqn:Hres;
    [|by rewrite (format_results_raises _ _ _ Hres)].
  exfalso. apply format_results_inv in Hres.
  rewrite take_ge in Hres
    by (rewrite length_ranked; unfold k, ntotal in *; lia).
  set (p := (Nat.min (length (documents self)) (length (metadata self)))).
  assert (p ∈ (ranked (scored (index self) q)).*2) as Hp.
  { rewrite ranked_positions. apply elem_of_seq. unfold p. lia. }
  apply list_elem_of_fmap in Hp as ([s p'] & Heq & Hin). cbn in Heq. subst p'.
  apply list_elem_of_lookup in Hin as [i Hi].
  destruct (Forall2_lookup_r _ _ _ _ _ Hres Hi) as (r & _ & Ht & Hm & _).
  cbn in Ht, Hm. apply lookup_lt_Some in Ht, Hm. unfold p in *. lia.
Qed.

End search_properties.

Section unnamed_properties.
Context `{B : Backend}.

(** X23. [delete_file] cannot reach a chunk whose dict has no "filename":
    whatever name is deleted, on any store, the dicts without that key
    are all kept, in their order. Only [reset_database] removes them. *)
Theorem delete_file_keeps_unnamed (filename : string) (w : World) (v : PyVal)
    (w' : World) :
  delete_file filename w = (Ok v, w') →
  filter (λ m : Meta, m !! "filename" = None) (metadata (store w')) =
  filter (λ m : Meta, m !! "filename" = None) (metadata (store w)).
Proof.
  intros [_ ->]%delete_file_returns. rewrite list_filter_filter.
  apply list_filter_iff. intros m. unfold has_filename. split.
  - by intros [? _].
  - intros Hm. split; [done|]. by rewrite Hm.
Qed.

End unnamed_properties.

(** * The theorems at work on the example store *)

#[local] Existing Instance example_backend.

Lemma example_score_order : ScoreOrder example_backend.
Proof.
  split; cbn.
  - intros a b. rewrite !Z.leb_le. lia.
  - intros a b c. rewrite !Z.leb_le. lia.
Qed.

Lemma alignment_invariant_witness :
  reachable example_world ∧
  (length (metadata (store example_world)) =
     length (documents (store example_world)) ∧
   Z.of_nat (length (documents (store example_world))) =
     ntotal (store example_world) ∧
   ∀ (i : nat) (t : string),
     documents (store example_world) !! i = Some t →
     index (store example_world) !! i = Some (normalize_L2 (encode_text t))).
Proof.
  split; [|apply (alignment_invariant example_world)];
    (apply reachable_call;
     apply (reachable_init "./faiss_db" "documents" ∅ 0); reflexivity).
Defined.

Lemma search_ranking_witness :
  ScoreOrder example_backend ∧
  aligned (store example_world) ∧
  0 < 2 ∧
  let q := normalize_L2 (encode_text "xyz") in
  ∃ (ranking : list (Score * nat)) (results : list SearchResult),
    search (store example_world) "xyz" 2 = Ok results ∧
    Z.of_nat (length results) = Z.min 2 (ntotal (store example_world)) ∧
    ranking.*2 ≡ₚ seq 0 (length (index (store example_world))) ∧
    (∀ s p, (s, p) ∈ ranking ↔
            ∃ v, index (store example_world) !! p = Some v
                 ∧ s = inner_product v q) ∧
    (∀ i j a b, (i < j)%nat →
       ranking !! i = Some a → ranking !! j = Some b →
       score_leb b.1 a.1 = true ∧
       (score_leb a.1 b.1 = true → (a.2 < b.2)%nat)) ∧
    Forall2 (λ r h,
               documents (store example_world) !! h.2 = Some (text r) ∧
               metadata (store example_world) !! h.2
                 = Some (result_metadata r) ∧
               distance r = one_minus h.1)
      results (take (length results) ranking).
Proof.
  split_and!; [exact example_score_order|split; reflexivity|lia|].
  apply (@search_ranking example_backend example_score_order
           (store example_world) "xyz" 2); [split; reflexivity|lia].
Defined.

Lemma delete_file_complete_witness :
  aligned (store example_world) ∧
  ∃ w',
    delete_file "A" example_world = (Ok PyNone, w') ∧
    (∀ (query : string) (top_k : Z),
       0 < top_k → ∃ results, search (store w') query top_k = Ok results) ∧
    file_exists (store w') "A" = false ∧
    ∀ (query : string) (top_k : Z) results,
      search (store w') query top_k = Ok results →
      Forall (λ r, ¬ has_filename "A" (result_metadata r)) results.
Proof.
  split; [split; reflexivity|].
  destruct (delete_file_complete "A" example_world) as [Hret Hpost].
  destruct Hret as (w' & Hrun & Hsearch); [split; reflexivity|].
  exists w'. split_and!; [exact Hrun|exact Hsearch|..];
    apply (Hpost PyNone w' Hrun).
Defined.

Lemma delete_file_retains_witness :
  aligned (store example_world) ∧
  ∃ w',
    delete_file "A" example_world = (Ok PyNone, w') ∧
    zip (documents (store w')) (metadata (store w')) =
      filter (λ tm, ¬ has_filename "A" tm.2)
        (zip (documents (store example_world))
           (metadata (store example_world))) ∧
    length (metadata (store w')) = length (documents (store w')) ∧
    Z.of_nat (length (documents (store w'))) = ntotal (store w') ∧
    ∀ (i : nat) (t : string),
      documents (store w') !! i = Some t →
      index (store w') !! i = Some (normalize_L2 (encode_text t)).
Proof.
  split; [split; reflexivity|].
  apply (delete_file_retains "A" example_world). split; reflexivity.
Defined.

Lemma search_empty_witness :
  ntotal (store example_init) = 0 ∧
  search (store example_init) "xyz" 5 = Ok [].
Proof.
  split; [reflexivity|].
  apply (search_empty (store example_init) "xyz" 5). reflexivity.
Defined.

(** [delete_file] gives [None] back where two chunks are removed. *)
Lemma delete_file_returns_no_count :
  (delete_file "A" example_world).1 ≠
  Ok (PyInt (Z.of_nat (removed_count "A" (store example_world)))).
Proof. vm_compute. discriminate. Qed.

Lemma delete_file_removed_count_witness :
  aligned (store example_world) ∧
  ∃ w',
    delete_file "A" example_world = (Ok PyNone, w') ∧
    length (metadata (store example_world)) =
      (length (metadata (store w'))
       + removed_count "A" (store example_world))%nat.
Proof.
  split; [split; reflexivity|].
  destruct (delete_file_removed_count "A" example_world) as [Hret Hpost].
  destruct Hret as (w' & Hrun); [split; reflexivity|].
  exists w'. split; [exact Hrun|]. apply (Hpost PyNone w' Hrun).
Defined.

Lemma delete_file_unknown_witness :
  ¬ Exists (has_filename "C") (metadata (store example_world)) ∧
  ∃ w',
    delete_file "C" example_world = (Ok PyNone, w') ∧
    index (store w') = index (store example_world) ∧
    metadata (store w') = metadata (store example_world) ∧
    documents (store w') = documents (store example_world) ∧
    disk w' = disk example_world.
Proof.
  assert (¬ Exists (has_filename "C") (metadata (store example_world)))
    as Hno by (apply (bool_decide_unpack _); vm_compute; exact I).
  split; [exact Hno|].
  apply (delete_file_unknown "C" example_world). exact Hno.
Defined.

(** * The further properties at work on the example store *)

#[local] Existing Instance example_tools.

Lemma VectorStore_init_torn_snapshot_witness :
  example_torn_disk !! os_path_join "./faiss_db" ("documents" +:+ ".index")
    = Some (FaissIndexFile ([2; 4; 1] : list Z)) ∧
  (example_torn_disk
     !! os_path_join "./faiss_db" ("documents" +:+ "_metadata.pkl") = None
   ∨ ∃ ms,
       example_torn_disk
         !! os_path_join "./faiss_db" ("documents" +:+ "_metadata.pkl")
         = Some (MetadataPickle ms) ∧
       example_torn_disk
         !! os_path_join "./faiss_db" ("documents" +:+ "_documents.pkl")
         = None) ∧
  (VectorStore_init "./faiss_db" "documents" example_torn_disk 0).1
    = Raise FileNotFoundError.
Proof.
  split_and!; [reflexivity|left; reflexivity|].
  apply (VectorStore_init_torn_snapshot "./faiss_db" "documents"
           example_torn_disk 0 ([2; 4; 1] : list Z));
    [reflexivity|left; reflexivity].
Defined.

Lemma call_other_files_untouched_witness :
  "notes.txt" ≠ index_path (store example_world) ∧
  "notes.txt" ≠ metadata_path (store example_world) ∧
  "notes.txt" ≠ documents_path (store example_world) ∧
  disk (call ResetDatabase example_world).2 !! "notes.txt"
    = disk example_world !! "notes.txt".
Proof.
  split_and!; [by vm_compute..|].
  apply (call_other_files_untouched ResetDatabase example_world "notes.txt");
    by vm_compute.
Defined.


Lemma catalog_ids_witness :
  reachable example_world ∧
  Forall (λ m : Meta, ∃ u, m !! "id" = Some (PyStr u))
    (metadata (store example_world)).
Proof.
  split; [|apply (catalog_ids example_world)];
    (apply reachable_call;
     apply (reachable_init "./faiss_db" "documents" ∅ 0); reflexivity).
Defined.

Lemma delete_file_twice_witness :
  delete_file "A" example_world
    = (Ok PyNone, (delete_file "A" example_world).2) ∧
  delete_file "A" (delete_file "A" example_world).2
    = (Ok PyNone, (delete_file "A" example_world).2).
Proof.
  split; [vm_compute; reflexivity|].
  apply (delete_file_twice "A" example_world PyNone).
  vm_compute. reflexivity.
Defined.

Lemma delete_file_other_files_witness :
  delete_file "A" example_world
    = (Ok PyNone, (delete_file "A" example_world).2) ∧
  "B" ≠ "A" ∧
  file_exists (store (delete_file "A" example_world).2) "B"
    = file_exists (store example_world) "B".
Proof.
  split_and!; [vm_compute; reflexivity|done|].
  apply (delete_file_other_files "A" "B" example_world PyNone);
    [vm_compute; reflexivity|done].
Defined.

Lemma search_results_from_store_witness :
  search (store example_world) "xyz" 2 = Ok example_results ∧
  Forall (λ r, ∃ (p : nat) (v : Vec),
            index (store example_world) !! p = Some v ∧
            documents (store example_world) !! p = Some (text r) ∧
            metadata (store example_world) !! p
              = Some (result_metadata r) ∧
            distance r =
              one_minus (inner_product v (normalize_L2 (encode_text "xyz"))))
    example_results ∧
  (length example_results ≤ length (index (store example_world)))%nat.
Proof.
  split; [vm_compute; reflexivity|].
  apply (search_results_from_store (store example_world) "xyz" 2).
  vm_compute. reflexivity.
Defined.

Lemma add_then_delete_file_witness :
  aligned (store example_world) ∧
  file_exists (store example_world) "C" = false ∧
  Forall (λ c, has_filename "C" c.2) example_new_chunks ∧
  ∃ w2,
    delete_file "C" (add_documents example_new_chunks example_world).2
      = (Ok PyNone, w2) ∧
    store w2 = store example_world.
Proof.
  assert (Forall (λ c : string * Meta, has_filename "C" c.2)
            example_new_chunks) as Hall
    by (repeat constructor).
  split_and!; [split; reflexivity|by vm_compute|exact Hall|].
  apply (add_then_delete_file example_new_chunks example_world "C");
    [split; reflexivity|by vm_compute|exact Hall].
Defined.

Lemma add_documents_new_file_stats_witness :
  "C" ≠ "" ∧
  example_new_chunks ≠ [] ∧
  Forall (λ c, has_filename "C" c.2) example_new_chunks ∧
  file_exists (store example_world) "C" = false ∧
  total_chunks
    (get_stats (store (add_documents example_new_chunks example_world).2))
    = (total_chunks (get_stats (store example_world))
       + length example_new_chunks)%nat ∧
  unique_files
    (get_stats (store (add_documents example_new_chunks example_world).2))
    = S (unique_files (get_stats (store example_world))) ∧
  ∀ v : PyVal,
    v ∈ files
          (get_stats
             (store (add_documents example_new_chunks example_world).2)) ↔
    v ∈ files (get_stats (store example_world)) ∨ v = PyStr "C".
Proof.
  assert (Forall (λ c : string * Meta, has_filename "C" c.2)
            example_new_chunks) as Hall
    by (repeat constructor).
  split_and!; [done|done|exact Hall|by vm_compute|..];
    apply (add_documents_new_file_stats example_new_chunks example_world "C");
    (done || exact Hall || by vm_compute).
Defined.

Lemma delete_file_stats_witness :
  delete_file "A" example_world
    = (Ok PyNone, (delete_file "A" example_world).2) ∧
  (∀ x : PyVal,
     x ∈ files (get_stats (store (delete_file "A" example_world).2)) ↔
     x ∈ files (get_stats (store example_world)) ∧ x ≠ PyStr "A") ∧
  ("A" ≠ "" → file_exists (store example_world) "A" = true →
   S (unique_files (get_stats (store (delete_file "A" example_world).2)))
   = unique_files (get_stats (store example_world))) ∧
  ("A" = "" ∨ file_exists (store example_world) "A" = false →
   unique_files (get_stats (store (delete_file "A" example_world).2))
   = unique_files (get_stats (store example_world))).
Proof.
  split; [vm_compute; reflexivity|].
  apply (delete_file_stats "A" example_world PyNone).
  vm_compute. reflexivity.
Defined.

Lemma replace_file_chunks_witness :
  aligned (store example_world) ∧
  ∃ w1,
    delete_file "A" example_world = (Ok PyNone, w1) ∧
    let w2 := (add_documents (chunk_text "new" "A") w1).2 in
    (filter (λ tm, has_filename "A" tm.2)
       (zip (documents (store w2)) (metadata (store w2)))).*1
      = split_text "new" ∧
    retained "A" (store w2) = retained "A" (store example_world) ∧
    aligned (store w2).
Proof.
  split; [split; reflexivity|].
  apply (replace_file_chunks "new" "A" example_world). split; reflexivity.
Defined.

Lemma generate_answer_after_search_witness :
  Forall (λ m : Meta, is_Some (m !! "filename"))
    (metadata (store example_world)) ∧
  search (store example_world) "xyz" 2 = Ok example_results ∧
  ∃ s,
    generate_answer example_failing_model "what?" example_results
      = Returns s.
Proof.
  assert (Forall (λ m : Meta, is_Some (m !! "filename"))
            (metadata (store example_world))) as Hnamed
    by (repeat constructor; eexists; reflexivity).
  split_and!; [exact Hnamed|vm_compute; reflexivity|].
  apply (generate_answer_after_search example_failing_model
           (store example_world) "xyz" 2 example_results);
    [exact Hnamed|vm_compute; reflexivity].
Defined.


Lemma search_prefix_witness :
  aligned (store example_world) ∧
  0 < 1 ∧ 1 ≤ 2 ∧
  search (store example_world) "xyz" 1 = Ok example_best ∧
  search (store example_world) "xyz" 2 = Ok example_results ∧
  example_best = take (length example_best) example_results.
Proof.
  split_and!;
    [split; reflexivity|lia|lia|vm_compute; reflexivity..|].
  apply (search_prefix (store example_world) "xyz" 1 2);
    [split; reflexivity|lia|lia|vm_compute; reflexivity..].
Defined.

Lemma search_torn_store_witness :
  (length (documents example_torn_store) < length (index example_torn_store)
   ∨ length (metadata example_torn_store)
     < length (index example_torn_store))%nat ∧
  ntotal example_torn_store ≤ 5 ∧
  search example_torn_store "xyz" 5 = Raise IndexError.
Proof.
  split_and!; [left; cbn; lia|by vm_compute|].
  apply (search_torn_store example_torn_store "xyz" 5);
    [left; cbn; lia|by vm_compute].
Defined.

Lemma delete_file_keeps_unnamed_witness :
  delete_file "A" example_unnamed_world
    = (Ok PyNone, (delete_file "A" example_unnamed_world).2) ∧
  filter (λ m : Meta, m !! "filename" = None)
    (metadata (store (delete_file "A" example_unnamed_world).2)) =
  filter (λ m : Meta, m !! "filename" = None)
    (metadata (store example_unnamed_world)).
Proof.
  split; [vm_compute; reflexivity|].
  apply (delete_file_keeps_unnamed "A" example_unnamed_world PyNone).
  vm_compute. reflexivity.
Defined.
